(** * Verification of the encoded-payload pipeline of multipartServer.js

    The development embeds [processEncodedData] (the decode / extension /
    persist function of the server) together with the parts of the Node.js
    runtime it calls: [Buffer.from(string, encoding)], [buf.toString(encoding)],
    [Date.now], [path.join] and [fs.writeFileSync].

    - JavaScript strings are sequences of UTF-16 code units, modelled as
      [list N]; buffers are sequences of bytes, also [list N].
    - A JavaScript computation either returns a value or throws an [Error]
      carrying a message: the type [Completion].
    - The file system, the clock and the behaviour of the disk are an explicit
      [World] threaded through the function. *)

From Stdlib Require Import NArith ZArith Lia String Ascii List Zify DecimalString.
From stdpp Require Import base tactics option list gmap.

Local Open Scope N_scope.

Ltac Zify.zify_post_hook ::= Z.to_euclidean_division_equations.

(** ** JavaScript values *)

Module Js.

(** A string: its UTF-16 code units. *)
Abbreviation jsstring := (list N) (only parsing).

(** A buffer: its bytes. *)
Abbreviation bytes := (list N) (only parsing).

(** A string literal of the source, as code units. *)
Definition lit (s : string) : jsstring :=
  map N_of_ascii (list_ascii_of_string s).

(** What evaluating a piece of code produces: a value, or a thrown [Error]
    with its [message]. *)
Inductive Completion (A : Type) : Type :=
| Return (a : A)
| Throw (message : jsstring).
Arguments Return {A} a.
Arguments Throw {A} message.

Definition is_bytes (B : bytes) : Prop := Forall (fun b => b < 256) B.

(** *** Character classes of the regular expressions in the source *)

Definition in_range (lo hi c : N) : bool := (lo <=? c) && (c <=? hi).

Definition is_digit (c : N) : bool := in_range 48 57 c.
Definition is_upper (c : N) : bool := in_range 65 90 c.
Definition is_lower (c : N) : bool := in_range 97 122 c.

(** [[0-9a-fA-F]] *)
Definition is_hex_digit (c : N) : bool :=
  is_digit c || in_range 97 102 c || in_range 65 70 c.

(** [[A-Za-z0-9+/]] *)
Definition is_base64_char (c : N) : bool :=
  is_upper c || is_lower c || is_digit c || (c =? 43) || (c =? 47).

(** [[a-zA-Z0-9.]] *)
Definition is_ext_char (c : N) : bool :=
  is_lower c || is_upper c || is_digit c || (c =? 46).

(** [\s]: the white space and line terminator code points of ECMAScript. *)
Definition is_space (c : N) : bool :=
  in_range 9 13 c || (c =? 32) || (c =? 160) || (c =? 5760)
  || in_range 8192 8202 c || (c =? 8232) || (c =? 8233) || (c =? 8239)
  || (c =? 8287) || (c =? 12288) || (c =? 65279).

Fixpoint skip_while (p : N -> bool) (s : jsstring) : jsstring :=
  match s with
  | [] => []
  | c :: r => if p c then skip_while p r else s
  end.

(** [/^[0-9a-fA-F]+$/.test(s)] *)
Definition test_hex (s : jsstring) : bool :=
  match s with
  | [] => false
  | _ :: _ => forallb is_hex_digit s
  end.

(** [/^[A-Za-z0-9+/]*={0,2}$/.test(s)]: the class does not contain [=], so
    the greedy star consumes exactly the longest prefix in the class. *)
Definition test_base64 (s : jsstring) : bool :=
  let rest := skip_while is_base64_char s in
  bool_decide (rest = []) || bool_decide (rest = [61]) || bool_decide (rest = [61; 61]).

(** [s.replace(/\s/g, '')] *)
Definition remove_spaces (s : jsstring) : jsstring :=
  List.filter (fun c => negb (is_space c)) s.

(** [s.replace(/x/g, y)] for single code units [x] and [y]. *)
Definition replace_all (x y : N) (s : jsstring) : jsstring :=
  map (fun c => if c =? x then y else c) s.

(** [s.startsWith('.')] *)
Definition starts_with_dot (s : jsstring) : bool :=
  match s with
  | c :: _ => c =? 46
  | [] => false
  end.

(** Truthiness of an optional string argument: [null], [undefined] and
    the empty string are falsy. *)
Definition truthy (v : option jsstring) : bool :=
  match v with
  | Some (_ :: _) => true
  | _ => false
  end.

(** [`${n}`] for a non-negative integer [n]. *)
Definition number_to_string (n : N) : jsstring :=
  lit (NilZero.string_of_uint (N.to_uint n)).

End Js.
Export Js.

(** ** The Node.js runtime *)

Module Node.

(** *** [Buffer.from(string, encoding)] *)

(** ['latin1'] and its alias ['binary']: the low byte of every code unit.
    ['ascii'] behaves identically when a string is written to a buffer. *)
Definition buffer_from_latin1 (s : jsstring) : bytes :=
  map (fun c => c mod 256) s.

(** ['utf16le'] and its alias ['ucs2']: two bytes per code unit, low byte
    first. *)
Definition buffer_from_utf16le (s : jsstring) : bytes :=
  flat_map (fun c => [c mod 256; (c / 256) mod 256]) s.

Definition is_high_surrogate (c : N) : bool := in_range 55296 56319 c.
Definition is_low_surrogate (c : N) : bool := in_range 56320 57343 c.

(** The UTF-8 bytes of one code point. *)
Definition utf8_bytes (cp : N) : bytes :=
  if cp <? 128 then [cp]
  else if cp <? 2048 then [192 + cp / 64; 128 + cp mod 64]
  else if cp <? 65536 then
    [224 + cp / 4096; 128 + (cp / 64) mod 64; 128 + cp mod 64]
  else
    [240 + (cp / 262144) mod 8; 128 + (cp / 4096) mod 64;
     128 + (cp / 64) mod 64; 128 + cp mod 64].

(** U+FFFD in UTF-8, written for a surrogate that has no partner. *)
Definition replacement : bytes := [239; 191; 189].

(** ['utf8']: surrogate pairs are combined, lone surrogates replaced. *)
Fixpoint buffer_from_utf8 (s : jsstring) : bytes :=
  match s with
  | [] => []
  | c :: r =>
    if is_high_surrogate c then
      match r with
      | d :: r' =>
        if is_low_surrogate d
        then utf8_bytes (65536 + (c - 55296) * 1024 + (d - 56320))
               ++ buffer_from_utf8 r'
        else replacement ++ buffer_from_utf8 r
      | [] => replacement
      end
    else if is_low_surrogate c then replacement ++ buffer_from_utf8 r
    else utf8_bytes c ++ buffer_from_utf8 r
  end.

(** The value of a hex digit. The decoder looks at the low byte of a code
    unit only. *)
Definition hex_value (c : N) : option N :=
  let b := c mod 256 in
  if is_digit b then Some (b - 48)
  else if in_range 97 102 b then Some (b - 87)
  else if in_range 65 70 b then Some (b - 55)
  else None.

(** ['hex']: one byte per pair of digits; decoding stops at the first pair
    that is not two hex digits, and a trailing single digit is dropped. *)
Fixpoint buffer_from_hex (s : jsstring) : bytes :=
  match s with
  | h :: l :: r =>
    match hex_value h, hex_value l with
    | Some a, Some b => (16 * a + b) :: buffer_from_hex r
    | _, _ => []
    end
  | _ => []
  end.

(** The decoding table of ['base64']: the standard alphabet and the
    URL-safe one. The decoder looks at the low byte of a code unit only, so
    that U+202F is read as [/] and U+205F as [_]. *)
Definition unbase64 (c : N) : option N :=
  let b := c mod 256 in
  if is_upper b then Some (b - 65)
  else if is_lower b then Some (b - 71)
  else if is_digit b then Some (b + 4)
  else if (b =? 43) || (b =? 45) then Some 62
  else if (b =? 47) || (b =? 95) then Some 63
  else None.

(** The 6-bit values of the input: code units whose low byte is outside the
    table are skipped and the first [=] ends the data. *)
Fixpoint base64_sextets (s : jsstring) : list N :=
  match s with
  | [] => []
  | c :: r =>
    if c mod 256 =? 61 then []
    else match unbase64 c with
         | Some v => v :: base64_sextets r
         | None => base64_sextets r
         end
  end.

(** Four 6-bit values give three bytes; a final group of two gives one
    byte and of three gives two. *)
Fixpoint bytes_of_sextets (l : list N) : bytes :=
  match l with
  | a :: b :: c :: d :: r =>
    (a * 4 + b / 16) :: ((b mod 16) * 16 + c / 4) :: ((c mod 4) * 64 + d)
      :: bytes_of_sextets r
  | [a; b; c] => [a * 4 + b / 16; (b mod 16) * 16 + c / 4]
  | [a; b] => [a * 4 + b / 16]
  | _ => []
  end.

(** ['base64'] in Node.js: lenient, it never throws on a string. *)
Definition buffer_from_base64 (s : jsstring) : Completion bytes :=
  Return (bytes_of_sextets (base64_sextets s)).

(** *** [buf.toString(encoding)] *)

Definition to_string_latin1 (B : bytes) : jsstring := B.

(** ['ascii'] clears the high bit of every byte. *)
Definition to_string_ascii (B : bytes) : jsstring :=
  map (fun b => b mod 128) B.

(** ['utf16le']: one code unit per pair of bytes, a trailing single byte
    is dropped. *)
Fixpoint to_string_utf16le (B : bytes) : jsstring :=
  match B with
  | lo :: hi :: r => (lo + 256 * hi) :: to_string_utf16le r
  | _ => []
  end.

Definition hex_digit (v : N) : N := if v <? 10 then 48 + v else 87 + v.

(** ['hex']: two lower-case digits per byte. *)
Definition to_string_hex (B : bytes) : jsstring :=
  flat_map (fun b => [hex_digit (b / 16); hex_digit (b mod 16)]) B.

Definition base64_char (v : N) : N :=
  if v <? 26 then 65 + v
  else if v <? 52 then 71 + v
  else if v <? 62 then v - 4
  else if v =? 62 then 43
  else 47.

(** ['base64']: the standard alphabet, padded with [=]. *)
Fixpoint to_string_base64 (B : bytes) : jsstring :=
  match B with
  | x :: y :: z :: r =>
    base64_char (x / 4) :: base64_char ((x mod 4) * 16 + y / 16)
      :: base64_char ((y mod 16) * 4 + z / 64) :: base64_char (z mod 64)
      :: to_string_base64 r
  | [x; y] =>
    [base64_char (x / 4); base64_char ((x mod 4) * 16 + y / 16);
     base64_char ((y mod 16) * 4); 61]
  | [x] => [base64_char (x / 4); base64_char ((x mod 4) * 16); 61; 61]
  | [] => []
  end.

Definition is_continuation (b : N) : bool := (128 <=? b) && (b <? 192).

(** The UTF-16 code units of one code point. *)
Definition utf16_units (cp : N) : jsstring :=
  if cp <? 65536 then [cp]
  else [55296 + (cp - 65536) / 1024; 56320 + (cp - 65536) mod 1024].

(** ['utf8'] on well-formed input. On ill-formed input Node.js substitutes
    U+FFFD, so the text no longer determines the bytes; that case is
    [None] here. Well-formed means shortest form, no surrogates and at
    most U+10FFFF. *)
Fixpoint to_string_utf8 (B : bytes) : option jsstring :=
  match B with
  | [] => Some []
  | b0 :: r0 =>
    if b0 <? 128 then cons b0 <$> to_string_utf8 r0
    else
      match r0 with
      | [] => None
      | b1 :: r1 =>
        if (194 <=? b0) && (b0 <? 224) then
          if is_continuation b1
          then cons ((b0 - 192) * 64 + (b1 - 128)) <$> to_string_utf8 r1
          else None
        else
          match r1 with
          | [] => None
          | b2 :: r2 =>
            if (224 <=? b0) && (b0 <? 240) then
              let cp := (b0 - 224) * 4096 + (b1 - 128) * 64 + (b2 - 128) in
              if is_continuation b1 && is_continuation b2 && (2048 <=? cp)
                 && negb (in_range 55296 57343 cp)
              then cons cp <$> to_string_utf8 r2
              else None
            else
              match r2 with
              | [] => None
              | b3 :: r3 =>
                if (240 <=? b0) && (b0 <? 245) then
                  let cp := (b0 - 240) * 262144 + (b1 - 128) * 4096
                            + (b2 - 128) * 64 + (b3 - 128) in
                  if is_continuation b1 && is_continuation b2
                     && is_continuation b3
                     && (65536 <=? cp) && (cp <? 1114112)
                  then app (utf16_units cp) <$> to_string_utf8 r3
                  else None
                else None
              end
          end
      end
  end.

(** *** The file system and the clock *)

(** How the disk behaves on the next [fs.writeFileSync], which opens the
    file with flag ['w'] (creating or truncating it), writes the data and
    closes the file:
    - [OpenFails m]: opening throws, nothing is created;
    - [WriteFails k m]: the file is opened, [k] bytes reach it, then
      writing throws (disk full, I/O error). *)
Inductive disk_fault : Type :=
| OpenFails (message : jsstring)
| WriteFails (written : nat) (message : jsstring).

Record World : Type := mkWorld {
  files : gmap (list N) (list N);   (* path -> content *)
  clock : N;                        (* milliseconds since the epoch *)
  disk : option disk_fault
}.

Definition with_files (w : World) (fs : gmap (list N) (list N)) : World :=
  {| files := fs; clock := clock w; disk := disk w |}.

(** Code that reads and changes the world and may throw. *)
Definition M (A : Type) : Type := World -> Completion A * World.

Definition ret {A} (a : A) : M A := fun w => (Return a, w).
Definition throw {A} (message : jsstring) : M A := fun w => (Throw message, w).
Definition lift {A} (c : Completion A) : M A := fun w => (c, w).

Definition bind {A B} (m : M A) (k : A -> M B) : M B :=
  fun w =>
    match m w with
    | (Return a, w') => k a w'
    | (Throw e, w') => (Throw e, w')
    end.

(** [try { body } catch (e) { handler(e.message) }] *)
Definition try_catch {A} (body : M A) (handler : jsstring -> M A) : M A :=
  fun w =>
    match body w with
    | (Return a, w') => (Return a, w')
    | (Throw e, w') => handler e w'
    end.

(** [Date.now()]: the clock is read, not advanced. How much time passes
    between two reads is not modelled; a statement that relates the values
    of two reads says so. *)
Definition Date_now : M N := fun w => (Return (clock w), w).

(** [fs.writeFileSync(path, data)] *)
Definition writeFileSync (path : jsstring) (data : bytes) : M unit :=
  fun w =>
    match disk w with
    | None => (Return tt, with_files w (<[path := data]> (files w)))
    | Some (OpenFails m) => (Throw m, w)
    | Some (WriteFails k m) =>
      (Throw m, with_files w (<[path := take k data]> (files w)))
    end.

End Node.
Export Node.

Notation "'let!' x ':=' m 'in' k" := (bind m (fun x => k))
  (at level 10, x name, m at level 100, k at level 200).

(** ** The server: multipartServer.js *)

(** The cases of [switch (encoding)]. *)
Inductive EncodingKind : Type :=
| Binary | Ascii | Utf8 | Utf16LE | Ucs2 | Hex | Base64.

(** The object returned by [processEncodedData]: the one with
    [success: true, decoded: true] or the one with [success: false]. The
    field [compressionRatio], a floating-point number formatted with
    [toFixed], is left out. *)
Inductive Outcome : Type :=
| Success (fieldname encoding : jsstring) (size : N) (path : jsstring)
          (originalSize : N)
| Failure (fieldname encoding error : jsstring).

(** What the deployment fixes. The source wraps [Buffer.from(_, 'base64')] in
    a [try] of its own, so whether the decoder of the runtime throws is left
    open here; [path.join] and the upload directory do not matter beyond being
    the same for the write and for the reported path. *)
Record Platform : Type := mkPlatform {
  base64_decoder : jsstring -> Completion bytes;
  path_join : jsstring -> jsstring -> jsstring;
  UPLOAD_DIR : jsstring
}.

(** Node.js itself, for a given [path.join] and upload directory. *)
Definition node (join : jsstring -> jsstring -> jsstring) (dir : jsstring)
  : Platform :=
  {| base64_decoder := Node.buffer_from_base64;
     path_join := join;
     UPLOAD_DIR := dir |}.

(** [path.join(dir, name)] when [name] is a single plain segment. *)
Definition plain_join (dir name : jsstring) : jsstring :=
  dir ++ lit "/" ++ name.

(** The label that [switch (encoding)] selects, [None] for [default]. *)
Definition switch_case (encoding : jsstring) : option EncodingKind :=
  if bool_decide (encoding = lit "binary") then Some Binary
  else if bool_decide (encoding = lit "ascii") then Some Ascii
  else if bool_decide (encoding = lit "utf8") then Some Utf8
  else if bool_decide (encoding = lit "utf-8") then Some Utf8
  else if bool_decide (encoding = lit "utf-16le") then Some Utf16LE
  else if bool_decide (encoding = lit "ucs2") then Some Ucs2
  else if bool_decide (encoding = lit "hex") then Some Hex
  else if bool_decide (encoding = lit "base64") then Some Base64
  else None.

Section Server.

Context (P : Platform).

(** The [case 'base64'] block (source lines 76-103). *)
Definition decode_base64 (data : jsstring) : Completion bytes :=
  let cleanData := remove_spaces data in
  if negb (test_base64 cleanData) then Throw (lit "Invalid base64 format")
  else if negb (length cleanData mod 4 =? 0)%nat
  then Throw (lit "Invalid base64 string length")
  else
    match base64_decoder P cleanData with
    | Return buffer => Return buffer
    | Throw base64Error =>
      let urlSafeData := replace_all 95 47 (replace_all 45 43 cleanData) in
      match base64_decoder P urlSafeData with
      | Return buffer => Return buffer
      | Throw urlSafeError =>
        Throw (lit "Base64 decoding failed: " ++ base64Error)
      end
    end.

(** The [switch] statement (source lines 41-107): the decoded buffer, or the
    error it throws. *)
Definition decode (data encoding : jsstring) : Completion bytes :=
  match switch_case encoding with
  | Some Binary => Return (buffer_from_latin1 data)
  | Some Ascii => Return (buffer_from_latin1 data)   (* 'ascii' writes as 'latin1' *)
  | Some Utf8 => Return (buffer_from_utf8 data)
  | Some Utf16LE => Return (buffer_from_utf16le data)
  | Some Ucs2 => Return (buffer_from_utf16le data)
  | Some Hex =>
    if negb (test_hex data) then Throw (lit "Invalid hexadecimal string")
    else Return (buffer_from_hex data)
  | Some Base64 => decode_base64 data
  | None => Throw (lit "Unsupported encoding: " ++ encoding)
  end.

(** [header[i] === v] *)
Definition byte_is (header : bytes) (i : nat) (v : N) : bool :=
  match header !! i with
  | Some b => b =? v
  | None => false
  end.

(** The image signature of the first bytes (source lines 122-135), if any. *)
Definition sniff (decodedData : bytes) : option jsstring :=
  let header := take 8 decodedData in
  if byte_is header 0 255 && byte_is header 1 216 && byte_is header 2 255
  then Some (lit ".jpg")
  else if byte_is header 0 137 && byte_is header 1 80 && byte_is header 2 78
          && byte_is header 3 71
  then Some (lit ".png")
  else if byte_is header 0 71 && byte_is header 1 73 && byte_is header 2 70
  then Some (lit ".gif")
  else if byte_is header 0 66 && byte_is header 1 77
  then Some (lit ".bmp")
  else None.

(** The extension given by the caller, normalised (source lines 116-117). *)
Definition normalize_extension (fileExtension : jsstring) : jsstring :=
  let ext := if starts_with_dot fileExtension then fileExtension
             else lit "." ++ fileExtension in
  List.filter is_ext_char ext.

(** The file extension (source lines 113-136). *)
Definition determine_extension (fileExtension : option jsstring)
    (encoding : jsstring) (decodedData : bytes) : jsstring :=
  let ext :=
    match fileExtension with
    | Some (c :: h) => normalize_extension (c :: h)
    | _ => lit ".bin"
    end in
  if negb (truthy fileExtension) && bool_decide (encoding = lit "base64")
  then default ext (sniff decodedData)
  else ext.

(** [`${Date.now()}-${fieldname}-${encoding}${ext}`] *)
Definition make_filename (now : N) (fieldname encoding ext : jsstring)
  : jsstring :=
  number_to_string now ++ lit "-" ++ fieldname ++ lit "-" ++ encoding ++ ext.

(** The object of the [catch] block. *)
Definition failure (fieldname encoding message : jsstring) : Outcome :=
  Failure fieldname encoding
    (lit "Failed to process " ++ encoding ++ lit " data: " ++ message).

(** [processEncodedData(data, encoding, fieldname, fileExtension)]. The calls
    of [console.log] are left out. *)
Definition processEncodedData (data encoding fieldname : jsstring)
    (fileExtension : option jsstring) : M Outcome :=
  try_catch
    (let! decodedData := lift (decode data encoding) in
     let! _ := (if (length decodedData =? 0)%nat
                then throw (lit "Decoded data is empty")
                else ret tt) in
     let ext := determine_extension fileExtension encoding decodedData in
     let! now := Date_now in
     let filename := make_filename now fieldname encoding ext in
     let filepath := path_join P (UPLOAD_DIR P) filename in
     let! _ := writeFileSync filepath decodedData in
     ret (Success fieldname encoding (N.of_nat (length decodedData)) filepath
            (N.of_nat (length data))))
    (fun message => ret (failure fieldname encoding message)).

End Server.

(** A string of hex digits. *)
Definition hex_digits (s : jsstring) : Prop :=
  Forall (fun c => is_hex_digit c = true) s.

(** The case labels of the [switch]. *)
Definition accepted_names : list jsstring :=
  [lit "binary"; lit "ascii"; lit "utf8"; lit "utf-8"; lit "utf-16le";
   lit "ucs2"; lit "hex"; lit "base64"].

(** The path of the file that a successful call writes. *)
Definition stored_path (P : Platform) (w : World)
    (fieldname encoding : jsstring) (ext : jsstring) : jsstring :=
  path_join P (UPLOAD_DIR P) (make_filename (clock w) fieldname encoding ext).

(** The messages of the errors thrown by the source. *)
Definition msg_empty : jsstring := lit "Decoded data is empty".
Definition msg_invalid_hex : jsstring := lit "Invalid hexadecimal string".
Definition msg_base64_format : jsstring := lit "Invalid base64 format".
Definition msg_base64_length : jsstring := lit "Invalid base64 string length".
Definition msg_unsupported (encoding : jsstring) : jsstring :=
  lit "Unsupported encoding: " ++ encoding.

(** *** The signature table of the specification *)

(** The binary signatures and their extensions, in the order in which the
    specification lists them. *)
Definition signatures : list (bytes * jsstring) :=
  [([255; 216; 255], lit ".jpg");
   ([137; 80; 78; 71], lit ".png");
   ([71; 73; 70], lit ".gif");
   ([66; 77], lit ".bmp")].

(** [B] begins with the bytes [sig]. *)
Fixpoint begins_with (sig B : bytes) : bool :=
  match sig, B with
  | [], _ => true
  | _ :: _, [] => false
  | v :: sig', b :: B' => (b =? v) && begins_with sig' B'
  end.

(** The extension of the first signature of the table that [B] begins with. *)
Definition first_signature (B : bytes) : option jsstring :=
  snd <$> List.find (fun e => begins_with (fst e) B) signatures.

(** *** The standard base64 alphabet *)

(** The value of a character of the standard alphabet: [A]-[Z] are 0-25,
    [a]-[z] are 26-51, [0]-[9] are 52-61, [+] is 62 and [/] is 63. *)
Definition standard_value (c : N) : N :=
  if is_upper c then c - 65
  else if is_lower c then c - 71
  else if is_digit c then c + 4
  else if c =? 43 then 62
  else 63.

Fixpoint take_while (p : N -> bool) (s : jsstring) : jsstring :=
  match s with
  | [] => []
  | c :: r => if p c then c :: take_while p r else []
  end.

(** *** The textual form of a byte sequence *)

(** [B.toString(encoding)], when [B] can be recovered from it: every byte
    sequence in binary, hex and base64, bytes below 128 in ascii, an even
    number of bytes in utf-16le and ucs2, well-formed UTF-8 in utf8. *)
Definition canonical_text (kind : EncodingKind) (B : bytes) : option jsstring :=
  match kind with
  | Binary => Some (to_string_latin1 B)
  | Ascii =>
    if forallb (fun b => b <? 128) B then Some (to_string_ascii B) else None
  | Utf8 => to_string_utf8 B
  | Utf16LE | Ucs2 =>
    if Nat.even (length B) then Some (to_string_utf16le B) else None
  | Hex => Some (to_string_hex B)
  | Base64 => Some (to_string_base64 B)
  end.

(** The world before any request: no file, a clock, a disk that works. *)
Definition fresh (now : N) : World :=
  {| files := ∅; clock := now; disk := None |}.

(** A deployment used in the examples: Node.js with the upload directory
    /srv/uploads. The field names of the examples are plain segments. *)
Definition demo : Platform := node plain_join (lit "/srv/uploads").

(** ** The request router: multipartServer.js *)

(** A file received by multer with memory storage. [originalname] may be
    missing. *)
Record UploadedFile : Type := mkUploadedFile {
  file_fieldname : jsstring;
  file_originalname : option jsstring;
  file_mimetype : jsstring;
  file_size : N;
  file_buffer : bytes
}.

(** What the handlers read of a request: [req.body], the text fields by name
    in the order in which the keys were added, with strings as values, and
    [req.files]; a missing [req.files] behaves like the empty array in every
    use the source makes of it. *)
Record Request : Type := mkRequest {
  req_body : list (jsstring * jsstring);
  req_files : list UploadedFile
}.

(** [body[key]] *)
Fixpoint body_get (body : list (jsstring * jsstring)) (key : jsstring)
  : option jsstring :=
  match body with
  | [] => None
  | (k, v) :: rest => if bool_decide (k = key) then Some v else body_get rest key
  end.

(** [Object.keys(body)] *)
Definition body_keys (body : list (jsstring * jsstring)) : list jsstring :=
  map fst body.

(** [s.startsWith(prefix)] *)
Definition starts_with (prefix s : jsstring) : bool :=
  bool_decide (take (length prefix) s = prefix).

(** [s.endsWith(suffix)] *)
Definition ends_with (suffix s : jsstring) : bool :=
  bool_decide (drop (length s - length suffix) s = suffix).

(** The predicate of [Object.keys(req.body).filter(...)] (source lines
    196-200 and 346-350). *)
Definition is_file_field (key : jsstring) : bool :=
  starts_with (lit "file") key && negb (ends_with (lit "_ext") key)
  && negb (bool_decide (key = lit "encoding")).

Definition file_fields (body : list (jsstring * jsstring)) : list jsstring :=
  List.filter is_file_field (body_keys body).

(** [req.body[`${field}_ext`] || null] *)
Definition hint_of (body : list (jsstring * jsstring)) (field : jsstring)
  : option jsstring :=
  match body_get body (field ++ lit "_ext") with
  | Some (c :: h) => Some (c :: h)
  | _ => None
  end.

(** An element of the [files] array of a response: the object pushed for an
    uploaded file ([encoding: 'multipart'] is present in
    [processMultipartEncodedData] and absent in the /upload handler), or the
    object returned by [processEncodedData]. *)
Inductive Result : Type :=
| Uploaded (fieldname : jsstring) (originalname : option jsstring)
           (encoding : option jsstring) (mimetype : jsstring) (size : N)
           (path : jsstring)
| Encoded (outcome : Outcome).

(** The body given to [res.json]. *)
Inductive ResponseBody : Type :=
| Stored (message : jsstring) (encoding : option jsstring)
         (files : list Result) (fields : list (jsstring * jsstring))
| Rejected (error : jsstring) (supportedEncodings : list jsstring).

Record Response : Type := mkResponse {
  status : N;
  json : ResponseBody
}.

(** The array ['binary', 'ascii', 'utf8', 'utf-16le', 'ucs2', 'hex',
    'base64'] of the 400 response. *)
Definition supported_encodings : list jsstring :=
  [lit "binary"; lit "ascii"; lit "utf8"; lit "utf-16le"; lit "ucs2";
   lit "hex"; lit "base64"].

Section Router.

Context (P : Platform).

(** [path.extname] of Node.js, left open. *)
Context (extname : jsstring -> jsstring).

(** [`${Date.now()}-${file.fieldname}-multipart${path.extname(file.originalname || '.bin')}`] *)
Definition upload_name (now : N) (file : UploadedFile) : jsstring :=
  number_to_string now ++ lit "-" ++ file_fieldname file ++ lit "-multipart"
    ++ extname (match file_originalname file with
                | Some (c :: n) => c :: n
                | _ => lit ".bin"
                end).

(** [path.join(UPLOAD_DIR, filename)] *)
Definition upload_path (now : N) (file : UploadedFile) : jsstring :=
  path_join P (UPLOAD_DIR P) (upload_name now file).

(** The object pushed for an uploaded file. *)
Definition uploaded (tag : option jsstring) (now : N) (file : UploadedFile)
  : Result :=
  Uploaded (file_fieldname file) (file_originalname file) tag
    (file_mimetype file) (file_size file) (upload_path now file).

(** [req.files.forEach(file => { ... results.push(...) })] (source lines
    175-192 and 223-237). The write is not inside a [try]. *)
Fixpoint store_uploads (tag : option jsstring) (uploads : list UploadedFile)
    (results : list Result) : M (list Result) :=
  match uploads with
  | [] => ret results
  | file :: rest =>
    let! now := Date_now in
    let filepath := upload_path now file in
    let! _ := writeFileSync filepath (file_buffer file) in
    store_uploads tag rest (results ++ [uploaded tag now file])
  end.

(** [fileFields.forEach(field => { ... })] (source lines 202-210): a field
    whose value is the empty string is skipped. *)
Fixpoint process_fields (body : list (jsstring * jsstring))
    (encoding : jsstring) (fileFields : list jsstring)
    (results : list Result) : M (list Result) :=
  match fileFields with
  | [] => ret results
  | field :: rest =>
    match body_get body field with
    | Some (c :: d) =>
      let fileExtension := hint_of body field in
      let! result := processEncodedData P (c :: d) encoding field fileExtension in
      process_fields body encoding rest (results ++ [Encoded result])
    | _ => process_fields body encoding rest results
    end
  end.

(** [processMultipartEncodedData(req, encoding)] (source lines 168-213). *)
Definition processMultipartEncodedData (req : Request) (encoding : jsstring)
  : M (list Result) :=
  let! results :=
    (match req_files req with
     | _ :: _ => store_uploads (Some (lit "multipart")) (req_files req) []
     | [] => ret []
     end) in
  process_fields (req_body req) encoding (file_fields (req_body req)) results.

(** The handler of POST /upload (source lines 216-245). *)
Definition upload (req : Request) : M Response :=
  let! results :=
    (match req_files req with
     | _ :: _ => store_uploads None (req_files req) []
     | [] => ret []
     end) in
  ret {| status := 200;
         json := Stored (lit "Received and stored standard multipart form-data")
                   None results (req_body req) |}.

(** The handlers of the seven routes with a fixed encoding (source lines
    248-337) differ in the encoding and in the message only. *)
Definition upload_with (encoding message : jsstring) (req : Request)
  : M Response :=
  let! savedFiles := processMultipartEncodedData req encoding in
  ret {| status := 200;
         json := Stored message None savedFiles (req_body req) |}.

Definition upload_base64 : Request -> M Response :=
  upload_with (lit "base64")
    (lit "Received and stored multipart form-data with base64 encoding").
Definition upload_binary : Request -> M Response :=
  upload_with (lit "binary")
    (lit "Received and stored multipart form-data with binary encoding").
Definition upload_ascii : Request -> M Response :=
  upload_with (lit "ascii")
    (lit "Received and stored multipart form-data with ASCII encoding").
Definition upload_utf8 : Request -> M Response :=
  upload_with (lit "utf8")
    (lit "Received and stored multipart form-data with UTF-8 encoding").
Definition upload_utf16le : Request -> M Response :=
  upload_with (lit "utf-16le")
    (lit "Received and stored multipart form-data with UTF-16LE encoding").
Definition upload_ucs2 : Request -> M Response :=
  upload_with (lit "ucs2")
    (lit "Received and stored multipart form-data with UCS-2 encoding").
Definition upload_hex : Request -> M Response :=
  upload_with (lit "hex")
    (lit "Received and stored multipart form-data with hex encoding").

(** [req.body.encoding || 'utf8'] *)
Definition selected_encoding (body : list (jsstring * jsstring)) : jsstring :=
  match body_get body (lit "encoding") with
  | Some (c :: e) => c :: e
  | _ => lit "utf8"
  end.

(** The handler of POST /upload-encoded (source lines 340-368). *)
Definition upload_encoded (req : Request) : M Response :=
  let encoding := selected_encoding (req_body req) in
  let fileFields := file_fields (req_body req) in
  match fileFields, req_files req with
  | [], [] =>
    ret {| status := 400;
           json := Rejected
                     (lit "No file fields or uploaded files found in request")
                     supported_encodings |}
  | _, _ =>
    let! savedFiles := processMultipartEncodedData req encoding in
    ret {| status := 200;
           json := Stored (lit "Received and stored multipart form-data with "
                             ++ encoding ++ lit " encoding")
                     (Some encoding) savedFiles (req_body req) |}
  end.

End Router.

(** The field name that an element of [files] reports. *)
Definition result_fieldname (r : Result) : jsstring :=
  match r with
  | Uploaded f _ _ _ _ _ => f
  | Encoded (Success f _ _ _ _) => f
  | Encoded (Failure f _ _) => f
  end.

(** ** The first version of the server *)

(** [processEncodedData] as it is in the earlier, synchronous version of
    the server: no validation of hex and base64, no check for an empty
    buffer and no signature sniffing. *)
Module Legacy.

(** The object returned: the one with [success: true] (it has no
    [originalSize]) or the one with [success: false]. *)
Inductive Outcome : Type :=
| Success (fieldname encoding : jsstring) (size : N) (path : jsstring)
| Failure (fieldname encoding error : jsstring).

Section Server.

Context (P : Platform).

(** The [switch] statement. *)
Definition decode (data encoding : jsstring) : Completion bytes :=
  match switch_case encoding with
  | Some Binary => Return (buffer_from_latin1 data)
  | Some Ascii => Return (buffer_from_latin1 data)
  | Some Utf8 => Return (buffer_from_utf8 data)
  | Some Utf16LE => Return (buffer_from_utf16le data)
  | Some Ucs2 => Return (buffer_from_utf16le data)
  | Some Hex => Return (buffer_from_hex data)
  | Some Base64 => base64_decoder P data
  | None => Throw (lit "Unsupported encoding: " ++ encoding)
  end.

(** The file extension: the hint, normalised, or .bin. *)
Definition extension (fileExtension : option jsstring) : jsstring :=
  match fileExtension with
  | Some (c :: h) => normalize_extension (c :: h)
  | _ => lit ".bin"
  end.

Definition processEncodedData (data encoding fieldname : jsstring)
    (fileExtension : option jsstring) : M Outcome :=
  try_catch
    (let! decodedData := lift (decode data encoding) in
     let ext := extension fileExtension in
     let! now := Date_now in
     let filename := make_filename now fieldname encoding ext in
     let filepath := path_join P (UPLOAD_DIR P) filename in
     let! _ := writeFileSync filepath decodedData in
     ret (Success fieldname encoding (N.of_nat (length decodedData)) filepath))
    (fun message =>
       ret (Failure fieldname encoding
              (lit "Failed to process " ++ encoding ++ lit " data: "
                 ++ message))).

End Server.

End Legacy.

(** ** The test data: test-encodings.js *)

(** The object built by [createTestData], for a given [testString]. *)
Definition test_data_of (testString : jsstring)
  : list (jsstring * jsstring) :=
  let B := buffer_from_utf8 testString in
  [(lit "utf8", testString);
   (lit "ascii", testString);
   (lit "binary", to_string_latin1 B);
   (lit "base64", to_string_base64 B);
   (lit "hex", to_string_hex B);
   (lit "utf-16le", to_string_utf16le B);
   (lit "ucs2", to_string_utf16le B)].

(** The [testString] of the source: ASCII text followed by accented Latin,
    Chinese and Japanese characters. *)
Definition testString : jsstring :=
  lit "Hello World! This is a test file with special characters: "
    ++ [241; 225; 233; 237; 243; 250; 32; 27979; 35797; 32;
        12486; 12473; 12488].

Definition createTestData : list (jsstring * jsstring) :=
  test_data_of testString.

(** ** Properties *)

(** *** The runtime model on known values *)

Example hello_hex : to_string_hex (lit "Hello") = lit "48656c6c6f".
Proof. reflexivity. Qed.

Example hello_base64 : to_string_base64 (lit "Hello") = lit "SGVsbG8=".
Proof. reflexivity. Qed.

Example url_safe_base64 :
  buffer_from_base64 (lit "-_8=") = buffer_from_base64 (lit "+/8=")
  /\ buffer_from_base64 (lit "+/8=") = Return [251; 255].
Proof. split; reflexivity. Qed.

(** "H", U+00E9, U+20AC and U+1F600 (a surrogate pair) in UTF-8. *)
Example text_utf8 :
  buffer_from_utf8 [72; 233; 8364; 55357; 56832]
  = [72; 195; 169; 226; 130; 172; 240; 159; 152; 128].
Proof. reflexivity. Qed.

(** A surrogate without partner is written as U+FFFD. *)
Example lone_surrogate_utf8 : buffer_from_utf8 [55357; 72] = [239; 191; 189; 72].
Proof. reflexivity. Qed.

(** Overlong forms, surrogates and truncated sequences are ill-formed. *)
Example ill_formed_utf8 :
  to_string_utf8 [192; 128] = None /\ to_string_utf8 [237; 160; 128] = None
  /\ to_string_utf8 [226; 130] = None /\ to_string_utf8 [244; 144; 128; 128] = None.
Proof. repeat split. Qed.

Example text_utf16le : buffer_from_utf16le [72; 8364] = [72; 0; 172; 32].
Proof. reflexivity. Qed.

(** Code units above 255 lose their high byte under binary and ascii. *)
Example latin1_is_lossy : buffer_from_latin1 [72; 233; 8364] = [72; 233; 172].
Proof. reflexivity. Qed.

Example timestamp_text :
  number_to_string 0 = lit "0"
  /\ number_to_string 1700000000000 = lit "1700000000000".
Proof. split; reflexivity. Qed.

Example hex_stops_at_bad_pair : buffer_from_hex (lit "48zz65") = [72].
Proof. reflexivity. Qed.

(** *** The shape of a call *)

Section Shape.

Context (P : Platform).

(** A call is a decode, the emptiness check and one write; every throw ends
    in the [catch] block. *)
Lemma processEncodedData_eq data encoding fieldname fileExtension w :
  processEncodedData P data encoding fieldname fileExtension w =
  match decode P data encoding with
  | Throw m => (Return (failure fieldname encoding m), w)
  | Return d =>
    if (length d =? 0)%nat
    then (Return (failure fieldname encoding msg_empty), w)
    else
      let filepath :=
        stored_path P w fieldname encoding
          (determine_extension fileExtension encoding d) in
      match writeFileSync filepath d w with
      | (Return _, w') =>
        (Return (Success fieldname encoding (N.of_nat (length d)) filepath
                   (N.of_nat (length data))), w')
      | (Throw m, w') => (Return (failure fieldname encoding m), w')
      end
  end.
Proof.
  unfold processEncodedData, try_catch, bind, lift, throw, ret, Date_now.
  destruct (decode P data encoding) as [d|m]; [|reflexivity].
  destruct (length d =? 0)%nat; [reflexivity|].
  unfold stored_path.
  destruct (writeFileSync _ d w) as [[[]|m] w']; reflexivity.
Qed.

Lemma decode_throw data encoding fieldname fileExtension w m :
  decode P data encoding = Throw m ->
  processEncodedData P data encoding fieldname fileExtension w
  = (Return (failure fieldname encoding m), w).
Proof. intros H. rewrite processEncodedData_eq, H. reflexivity. Qed.

Lemma decode_empty data encoding fieldname fileExtension w :
  decode P data encoding = Return [] ->
  processEncodedData P data encoding fieldname fileExtension w
  = (Return (failure fieldname encoding msg_empty), w).
Proof. intros H. rewrite processEncodedData_eq, H. reflexivity. Qed.

Lemma decode_stored data encoding fieldname fileExtension w d :
  decode P data encoding = Return d -> d <> [] -> disk w = None ->
  let filepath :=
    stored_path P w fieldname encoding
      (determine_extension fileExtension encoding d) in
  processEncodedData P data encoding fieldname fileExtension w
  = (Return (Success fieldname encoding (N.of_nat (length d)) filepath
               (N.of_nat (length data))),
     with_files w (<[filepath := d]> (files w))).
Proof.
  intros H Hd Hw. rewrite processEncodedData_eq, H.
  destruct d as [|b d]; [congruence|]. cbn [length Nat.eqb].
  unfold writeFileSync. rewrite Hw. reflexivity.
Qed.

End Shape.

Lemma switch_case_None encoding :
  switch_case encoding = None <-> encoding ∉ accepted_names.
Proof.
  unfold switch_case, accepted_names.
  rewrite !not_elem_of_cons.
  repeat case_bool_decide; split; try discriminate; try tauto.
  intros _. repeat split; try assumption. apply not_elem_of_nil.
Qed.

(** *** Unsupported encodings *)

(** C4. An encoding that is none of the case labels of the [switch] (for
    example rot13) gives the failure outcome with the message
    "Unsupported encoding: <encoding>", whatever the payload is (the payload
    is not looked at), and the world, hence the file store, is unchanged. *)
Theorem unsupported_encoding_rejected (P : Platform)
    (data encoding fieldname : jsstring) (fileExtension : option jsstring)
    (w : World) :
  encoding ∉ accepted_names ->
  processEncodedData P data encoding fieldname fileExtension w
  = (Return (Failure fieldname encoding
               (lit "Failed to process " ++ encoding
                  ++ lit " data: Unsupported encoding: " ++ encoding)), w).
Proof.
  intros Hn. apply switch_case_None in Hn.
  rewrite (decode_throw P _ _ _ _ _ (msg_unsupported encoding)).
  - reflexivity.
  - unfold decode. rewrite Hn. reflexivity.
Qed.

Lemma unsupported_encoding_rot13 :
(lit "rot13" ∉ accepted_names) /\
  processEncodedData demo (lit "SGVsbG8=") (lit "rot13") (lit "file1") None
    (fresh 1700000000000)
  = (Return (Failure (lit "file1") (lit "rot13")
               (lit "Failed to process rot13 data: Unsupported encoding: rot13")),
     fresh 1700000000000).
Proof.
  assert (Hn : lit "rot13" ∉ accepted_names)
    by (apply switch_case_None; reflexivity).
  split; [exact Hn|].
  exact (unsupported_encoding_rejected demo (lit "SGVsbG8=") (lit "rot13")
           (lit "file1") None (fresh 1700000000000) Hn).
Defined.

(** *** The empty payload *)

(** C1, as stated, fails for hex: the empty string does not match
    [/^[0-9a-fA-F]+$/], so the error is the one of the hex validation and not
    the one of the emptiness check. *)
Lemma empty_hex_is_invalid_hex :
  processEncodedData demo [] (lit "hex") (lit "file1") None (fresh 0)
  = (Return (Failure (lit "file1") (lit "hex")
               (lit "Failed to process hex data: Invalid hexadecimal string")),
     fresh 0)
  /\ processEncodedData demo [] (lit "hex") (lit "file1") None (fresh 0)
     <> (Return (failure (lit "file1") (lit "hex") msg_empty), fresh 0).
Proof. split; [reflexivity | discriminate]. Qed.

(** C1, amended. With the empty string as payload every accepted encoding
    gives a failure outcome and leaves the world unchanged; the message is
    "Decoded data is empty" for binary, ascii, utf8, utf-8, utf-16le, ucs2
    and base64, and "Invalid hexadecimal string" for hex. *)
Theorem empty_payload_failure (join : jsstring -> jsstring -> jsstring)
    (dir encoding fieldname : jsstring) (kind : EncodingKind)
    (fileExtension : option jsstring) (w : World) :
  switch_case encoding = Some kind ->
  processEncodedData (node join dir) [] encoding fieldname fileExtension w
  = (Return (failure fieldname encoding
               (match kind with Hex => msg_invalid_hex | _ => msg_empty end)),
     w).
Proof.
  intros Hk. rewrite processEncodedData_eq. unfold decode. rewrite Hk.
  destruct kind; reflexivity.
Qed.

Lemma empty_payload_failure_base64 :
  switch_case (lit "base64") = Some Base64 /\
  processEncodedData demo [] (lit "base64") (lit "file1") None (fresh 0)
  = (Return (failure (lit "file1") (lit "base64") msg_empty), fresh 0).
Proof.
  split; [reflexivity|].
  apply (empty_payload_failure plain_join (lit "/srv/uploads") (lit "base64")
           (lit "file1") Base64 None (fresh 0)).
  reflexivity.
Defined.

(** *** No exception crosses the boundary *)

(** C7. For every payload, encoding, field name and extension hint, on every
    platform and in every world, the call returns an outcome (it does not
    throw). The outcome carries the field name and the encoding it was called
    with. A failure carries "Failed to process <encoding> data: <message>",
    where the message is the one of the error that was thrown: by the
    decoding, by the emptiness check ("Decoded data is empty") or by
    [fs.writeFileSync]. *)
Theorem never_throws (P : Platform) (data encoding fieldname : jsstring)
    (fileExtension : option jsstring) (w : World) :
  exists (o : Outcome) (w' : World),
    processEncodedData P data encoding fieldname fileExtension w = (Return o, w')
    /\ match o with
       | Success f e _ _ _ => f = fieldname /\ e = encoding
       | Failure f e err =>
         f = fieldname /\ e = encoding
         /\ exists m,
             err = lit "Failed to process " ++ encoding ++ lit " data: " ++ m
             /\ (decode P data encoding = Throw m
                 \/ (decode P data encoding = Return []
                     /\ m = lit "Decoded data is empty")
                 \/ exists d w1,
                      decode P data encoding = Return d /\ d <> []
                      /\ writeFileSync
                           (stored_path P w fieldname encoding
                              (determine_extension fileExtension encoding d))
                           d w
                         = (Throw m, w1))
       end
    /\ (forall m, decode P data encoding = Throw m ->
                  o = Failure fieldname encoding
                        (lit "Failed to process " ++ encoding
                           ++ lit " data: " ++ m)
                  /\ w' = w)
    /\ (decode P data encoding = Return [] ->
        o = Failure fieldname encoding
              (lit "Failed to process " ++ encoding
                 ++ lit " data: Decoded data is empty")
        /\ w' = w)
    /\ (forall d m w1,
          decode P data encoding = Return d -> d <> [] ->
          writeFileSync
            (stored_path P w fieldname encoding
               (determine_extension fileExtension encoding d)) d w
          = (Throw m, w1) ->
          o = Failure fieldname encoding
                (lit "Failed to process " ++ encoding ++ lit " data: " ++ m)
          /\ w' = w1).
Proof.
  rewrite processEncodedData_eq.
  destruct (decode P data encoding) as [d|m] eqn:Hd.
  - destruct d as [|b d].
    + exists (failure fieldname encoding msg_empty), w.
      split; [reflexivity|]. split; [|split; [|split]].
      * unfold failure. split; [reflexivity|]. split; [reflexivity|].
        exists msg_empty. split; [reflexivity|]. right. left. auto.
      * intros m0 [=].
      * intros _. split; reflexivity.
      * intros d0 m0 w1 [= <-] Hne. congruence.
    + cbn [length Nat.eqb]. cbv zeta.
      destruct (writeFileSync _ (b :: d) w) as [[[]|m] w1] eqn:Hw.
      * eexists _, w1. split; [reflexivity|].
        split; [split; reflexivity|]. split; [|split].
        -- intros m0 [=].
        -- intros [=].
        -- intros d0 m0 w2 [= <-] _ Hw'. congruence.
      * exists (failure fieldname encoding m), w1.
        split; [reflexivity|]. split; [|split; [|split]].
        -- unfold failure. split; [reflexivity|]. split; [reflexivity|].
           exists m. split; [reflexivity|]. right. right.
           exists (b :: d), w1. split; [reflexivity|].
           split; [discriminate | exact Hw].
        -- intros m0 [=].
        -- intros [=].
        -- intros d0 m0 w2 [= <-] _ Hw'. rewrite Hw in Hw'.
           injection Hw' as -> ->. split; reflexivity.
  - exists (failure fieldname encoding m), w.
    split; [reflexivity|]. split; [|split; [|split]].
    + unfold failure. split; [reflexivity|]. split; [reflexivity|].
      exists m. split; [reflexivity|]. left. reflexivity.
    + intros m0 [= ->]. split; reflexivity.
    + intros [=].
    + intros d0 m0 w1 [=].
Qed.

(** *** Outcomes and the file store *)

(** C5, as stated, fails when the disk fails in the middle of a write: the
    outcome is a failure, yet the file has been created and holds the bytes
    written so far. Nothing in [processEncodedData] removes it. *)
Lemma failure_after_partial_write :
  let w := {| files := ∅; clock := 1700000000000;
              disk := Some (WriteFails 2 (lit "ENOSPC: no space left on device, write")) |} in
  let filepath := lit "/srv/uploads/1700000000000-file1-hex.bin" in
  exists w',
    processEncodedData demo (lit "48656c6c6f") (lit "hex") (lit "file1") None w
    = (Return (Failure (lit "file1") (lit "hex")
                 (lit "Failed to process hex data: ENOSPC: no space left on device, write")),
       w')
    /\ files w !! filepath = None
    /\ files w' !! filepath = Some [72; 101].
Proof.
  eexists. split; [reflexivity|]. split; reflexivity.
Qed.

(** C5, amended. A success outcome implies that the file at the reported path
    holds exactly the decoded payload and that the reported size is its
    length. A failure outcome implies that the world is unchanged, hence that
    no file was written, except when [fs.writeFileSync] itself failed after
    it had opened the file: then the file holds the bytes that were written
    before the error. *)
Theorem outcome_and_store (P : Platform) (data encoding fieldname : jsstring)
    (fileExtension : option jsstring) (w w' : World) (o : Outcome) :
  processEncodedData P data encoding fieldname fileExtension w = (Return o, w') ->
  match o with
  | Success _ _ size path _ =>
    exists d, decode P data encoding = Return d
              /\ files w' !! path = Some d
              /\ size = N.of_nat (length d)
  | Failure _ _ _ =>
    w' = w
    \/ exists d k m,
         decode P data encoding = Return d /\ d <> []
         /\ disk w = Some (WriteFails k m)
         /\ w' = with_files w
                   (<[stored_path P w fieldname encoding
                        (determine_extension fileExtension encoding d)
                      := take k d]> (files w))
  end.
Proof.
  rewrite processEncodedData_eq.
  destruct (decode P data encoding) as [d|m] eqn:Hd.
  - destruct d as [|b d].
    + cbn. intros [= <- <-]. left. reflexivity.
    + cbn [length Nat.eqb]. cbv zeta. unfold writeFileSync.
      destruct (disk w) as [[m|k m]|] eqn:Hdisk.
      * intros [= <- <-]. left. reflexivity.
      * intros [= <- <-]. right. exists (b :: d), k, m. repeat split; congruence.
      * intros [= <- <-]. exists (b :: d). split; [reflexivity|].
        split; [|reflexivity]. cbn. apply lookup_insert_eq.
  - intros [= <- <-]. left. reflexivity.
Qed.

Lemma outcome_and_store_hello :
  let w := fresh 1700000000000 in
  let filepath := lit "/srv/uploads/1700000000000-file1-hex.bin" in
  let r := processEncodedData demo (lit "48656c6c6f") (lit "hex") (lit "file1")
             None w in
  exists d, decode demo (lit "48656c6c6f") (lit "hex") = Return d
            /\ files (snd r) !! filepath = Some d
            /\ 5 = N.of_nat (length d).
Proof.
  intros w filepath r.
  exact (outcome_and_store demo (lit "48656c6c6f") (lit "hex") (lit "file1")
           None w (snd r) (Success (lit "file1") (lit "hex") 5 filepath 10)
           eq_refl).
Defined.

(** *** Hexadecimal payloads *)

(** Boolean comparisons in the hypotheses, as propositions for [lia]. *)
Ltac reflect_bool :=
  repeat match goal with
  | H : context [andb _ _ = true] |- _ => rewrite andb_true_iff in H
  | H : context [andb _ _ = false] |- _ => rewrite andb_false_iff in H
  | H : context [orb _ _ = true] |- _ => rewrite orb_true_iff in H
  | H : context [orb _ _ = false] |- _ => rewrite orb_false_iff in H
  | H : context [negb _ = true] |- _ => rewrite negb_true_iff in H
  | H : context [negb _ = false] |- _ => rewrite negb_false_iff in H
  | H : context [(_ <=? _) = true] |- _ => rewrite N.leb_le in H
  | H : context [(_ <=? _) = false] |- _ => rewrite N.leb_gt in H
  | H : context [(_ <? _) = true] |- _ => rewrite N.ltb_lt in H
  | H : context [(_ <? _) = false] |- _ => rewrite N.ltb_ge in H
  | H : context [(_ =? _) = true] |- _ => rewrite N.eqb_eq in H
  | H : context [(_ =? _) = false] |- _ => rewrite N.eqb_neq in H
  end.

(** Induction over a list two elements at a time. *)
Lemma pair_ind {A} (Q : list A -> Prop) :
  Q [] -> (forall x, Q [x]) -> (forall x y l, Q l -> Q (x :: y :: l)) ->
  forall l, Q l.
Proof.
  intros H0 H1 H2.
  assert (H : forall l, Q l /\ forall x, Q (x :: l)).
  { induction l as [|y l [IH1 IH2]]; split; auto. }
  intros l. apply H.
Qed.

Lemma test_hex_spec (s : jsstring) :
  test_hex s = true <-> s <> [] /\ hex_digits s.
Proof.
  unfold test_hex, hex_digits. destruct s as [|c s].
  - split; [discriminate | intros [H _]; congruence].
  - rewrite forallb_forall, List.Forall_forall. split.
    + intros H. split; [discriminate | exact H].
    + intros [_ H]. exact H.
Qed.

Lemma hex_value_digit (c : N) :
  is_hex_digit c = true -> exists v, hex_value c = Some v /\ v < 16.
Proof.
  intros H.
  assert (Hc : c mod 256 = c).
  { apply N.mod_small. unfold is_hex_digit, is_digit, in_range in H.
    reflect_bool. lia. }
  unfold hex_value. cbv zeta. rewrite Hc. clear Hc.
  unfold is_hex_digit, is_digit, in_range in *.
  destruct ((48 <=? c) && (c <=? 57)) eqn:E1;
    [eexists; split; [reflexivity | reflect_bool; lia]|].
  destruct ((97 <=? c) && (c <=? 102)) eqn:E2;
    [eexists; split; [reflexivity | reflect_bool; lia]|].
  destruct ((65 <=? c) && (c <=? 70)) eqn:E3;
    [eexists; split; [reflexivity | reflect_bool; lia]|].
  discriminate.
Qed.

Lemma buffer_from_hex_length (s : jsstring) :
  hex_digits s -> length (buffer_from_hex s) = (length s / 2)%nat.
Proof.
  induction s as [| x | x y s IH] using pair_ind; intros Hs; try reflexivity.
  inversion_clear Hs as [|? ? Hx Hs']. inversion_clear Hs' as [|? ? Hy Hs].
  destruct (hex_value_digit x Hx) as (a & Ha & _).
  destruct (hex_value_digit y Hy) as (b & Hb & _).
  cbn [buffer_from_hex]. rewrite Ha, Hb. cbn [length]. rewrite (IH Hs).
  change (S (S (length s))) with (1 * 2 + length s)%nat.
  rewrite Nat.div_add_l by lia. lia.
Qed.

Lemma buffer_from_hex_pairs (s : jsstring) :
  hex_digits s ->
  forall (i : nat) (h l : N),
    s !! (2 * i)%nat = Some h -> s !! (2 * i + 1)%nat = Some l ->
    exists a b, hex_value h = Some a /\ hex_value l = Some b
                /\ buffer_from_hex s !! i = Some (16 * a + b).
Proof.
  induction s as [| x | x y s IH] using pair_ind; intros Hs i h l Hh Hl.
  - apply lookup_lt_Some in Hh. cbn in Hh. lia.
  - apply lookup_lt_Some in Hl. cbn in Hl. lia.
  - inversion_clear Hs as [|? ? Hx Hs']. inversion_clear Hs' as [|? ? Hy Hs].
    destruct (hex_value_digit x Hx) as (a & Ha & _).
    destruct (hex_value_digit y Hy) as (b & Hb & _).
    cbn [buffer_from_hex]. rewrite Ha, Hb.
    destruct i as [|i].
    + cbn in Hh, Hl. injection Hh as <-. injection Hl as <-.
      exists a, b. auto.
    + replace (2 * S i)%nat with (S (S (2 * i))) in Hh by lia.
      replace (2 * S i + 1)%nat with (S (S (2 * i + 1))) in Hl by lia.
      cbn in Hh, Hl. cbn [lookup list_lookup]. apply (IH Hs i h l Hh Hl).
Qed.

Lemma buffer_from_hex_odd (s : jsstring) (c : N) :
  hex_digits s -> Nat.even (length s) = true ->
  buffer_from_hex (s ++ [c]) = buffer_from_hex s.
Proof.
  induction s as [| x | x y s IH] using pair_ind; intros Hs He.
  - reflexivity.
  - discriminate.
  - inversion_clear Hs as [|? ? Hx Hs']. inversion_clear Hs' as [|? ? Hy Hs].
    destruct (hex_value_digit x Hx) as (a & Ha & _).
    destruct (hex_value_digit y Hy) as (b & Hb & _).
    cbn [app buffer_from_hex]. rewrite Ha, Hb. f_equal. apply (IH Hs He).
Qed.

Lemma decode_hex (P : Platform) (data : jsstring) :
  decode P data (lit "hex")
  = if test_hex data then Return (buffer_from_hex data)
    else Throw msg_invalid_hex.
Proof.
  unfold decode. change (switch_case (lit "hex")) with (Some Hex).
  destruct (test_hex data); reflexivity.
Qed.

(** C3. Under hex a payload that does not match [/^[0-9a-fA-F]+$/] gives the
    failure with message "Invalid hexadecimal string"; a payload that
    matches is decoded pair by pair, byte [i] being [16 * a + b] for the
    values [a] and [b] of the digits [2 i] and [2 i + 1]. "zz" gives that
    failure, and "48656c6c6f" gives, when the disk does not fail, a success
    of size 5 whose file holds the bytes of "Hello". *)
Theorem hex_decoding (P : Platform) (data fieldname : jsstring)
    (fileExtension : option jsstring) (w : World) :
  (test_hex data = false ->
   processEncodedData P data (lit "hex") fieldname fileExtension w
   = (Return (Failure fieldname (lit "hex")
                (lit "Failed to process hex data: Invalid hexadecimal string")),
      w))
  /\ (test_hex data = true ->
      decode P data (lit "hex") = Return (buffer_from_hex data)
      /\ length (buffer_from_hex data) = (length data / 2)%nat
      /\ forall (i : nat) (h l : N),
           data !! (2 * i)%nat = Some h -> data !! (2 * i + 1)%nat = Some l ->
           exists a b, hex_value h = Some a /\ hex_value l = Some b
                       /\ buffer_from_hex data !! i = Some (16 * a + b))
  /\ processEncodedData P (lit "zz") (lit "hex") fieldname fileExtension w
     = (Return (Failure fieldname (lit "hex")
                  (lit "Failed to process hex data: Invalid hexadecimal string")),
        w)
  /\ (disk w = None ->
      let filepath :=
        stored_path P w fieldname (lit "hex")
          (determine_extension fileExtension (lit "hex") (lit "Hello")) in
      processEncodedData P (lit "48656c6c6f") (lit "hex") fieldname
        fileExtension w
      = (Return (Success fieldname (lit "hex") 5 filepath 10),
         with_files w (<[filepath := lit "Hello"]> (files w)))).
Proof.
  split; [|split; [|split]].
  - intros Ht. rewrite (decode_throw P _ _ _ _ _ msg_invalid_hex);
      [reflexivity | rewrite decode_hex, Ht; reflexivity].
  - intros Ht. apply test_hex_spec in Ht as Hs. destruct Hs as [_ Hs].
    split; [rewrite decode_hex, Ht; reflexivity|].
    split; [apply buffer_from_hex_length, Hs|].
    apply buffer_from_hex_pairs, Hs.
  - rewrite (decode_throw P _ _ _ _ _ msg_invalid_hex);
      [reflexivity | rewrite decode_hex; reflexivity].
  - intros Hw.
    apply (decode_stored P (lit "48656c6c6f") (lit "hex") fieldname
             fileExtension w (lit "Hello")); [|discriminate|exact Hw].
    rewrite decode_hex. reflexivity.
Qed.

Lemma hex_decoding_hello :
  test_hex (lit "48656c6c6f") = true
  /\ decode demo (lit "48656c6c6f") (lit "hex") = Return (lit "Hello")
  /\ files (snd (processEncodedData demo (lit "48656c6c6f") (lit "hex")
                   (lit "file1") None (fresh 1700000000000)))
       !! lit "/srv/uploads/1700000000000-file1-hex.bin"
     = Some (lit "Hello").
Proof.
  destruct (hex_decoding demo (lit "48656c6c6f") (lit "file1") None
              (fresh 1700000000000)) as (_ & Hm & _ & Hs).
  split; [reflexivity|]. split.
  - destruct (Hm eq_refl) as (Hd & _). exact Hd.
  - rewrite (Hs eq_refl). reflexivity.
Defined.

(** C10. Under hex a payload of hex digits of odd length passes the
    validation; its last digit is ignored: the decoded bytes are those of the
    payload without its last digit, [floor (n / 2)] of them. A payload of
    one hex digit therefore decodes to no byte and gives the failure
    "Decoded data is empty", not "Invalid hexadecimal string". *)
Theorem odd_hex_drops_last_digit (P : Platform) (data fieldname : jsstring)
    (fileExtension : option jsstring) (w : World) :
  hex_digits data -> Nat.odd (length data) = true ->
  test_hex data = true
  /\ decode P data (lit "hex") = Return (buffer_from_hex (removelast data))
  /\ length (buffer_from_hex (removelast data)) = (length data / 2)%nat
  /\ (length data = 1%nat ->
      processEncodedData P data (lit "hex") fieldname fileExtension w
      = (Return (Failure fieldname (lit "hex")
                   (lit "Failed to process hex data: Decoded data is empty")),
         w)).
Proof.
  intros Hs Ho.
  assert (Hne : data <> []) by (intros ->; discriminate).
  assert (Ht : test_hex data = true) by (apply test_hex_spec; auto).
  destruct (exists_last Hne) as (s & c & ->).
  rewrite removelast_last.
  assert (Hs' : hex_digits s).
  { unfold hex_digits in *. apply Forall_app in Hs. tauto. }
  assert (He : Nat.even (length s) = true).
  { rewrite length_app, Nat.add_1_r, Nat.odd_succ in Ho. exact Ho. }
  assert (Hd : decode P (s ++ [c]) (lit "hex") = Return (buffer_from_hex s)).
  { rewrite decode_hex, Ht, buffer_from_hex_odd; auto. }
  split; [exact Ht|]. split; [exact Hd|]. split.
  - rewrite buffer_from_hex_length by exact Hs'.
    rewrite length_app, Nat.add_1_r.
    apply Nat.even_spec in He. destruct He as [k Hk]. rewrite Hk.
    replace (S (2 * k)) with (1 + k * 2)%nat by lia.
    rewrite Nat.div_add by lia. rewrite (Nat.mul_comm 2 k), Nat.div_mul by lia.
    reflexivity.
  - intros Hl. rewrite length_app, Nat.add_1_r in Hl.
    destruct s; [|discriminate].
    rewrite (decode_empty P _ _ _ _ _ Hd). reflexivity.
Qed.

Lemma odd_hex_single_digit :
  hex_digits (lit "a") /\ Nat.odd (length (lit "a")) = true
  /\ processEncodedData demo (lit "a") (lit "hex") (lit "file1") None (fresh 0)
     = (Return (Failure (lit "file1") (lit "hex")
                  (lit "Failed to process hex data: Decoded data is empty")),
        fresh 0).
Proof.
  assert (Hs : hex_digits (lit "a")) by (repeat constructor).
  split; [exact Hs|]. split; [reflexivity|].
  destruct (odd_hex_drops_last_digit demo (lit "a") (lit "file1") None (fresh 0)
              Hs eq_refl) as (_ & _ & _ & H).
  apply H. reflexivity.
Defined.

(** *** The file extension *)

Lemma sniff_first_signature (d : bytes) : sniff d = first_signature d.
Proof.
  unfold sniff, first_signature, signatures, byte_is.
  destruct d as [|a [|b [|c [|e r]]]]; cbn;
    repeat match goal with
           | |- context [?x =? ?v] => destruct (x =? v); cbn
           end; reflexivity.
Qed.

Lemma determine_extension_no_hint (fileExtension : option jsstring)
    (d : bytes) :
  truthy fileExtension = false ->
  determine_extension fileExtension (lit "base64") d
  = default (lit ".bin") (first_signature d).
Proof.
  intros Ht. unfold determine_extension. rewrite Ht, sniff_first_signature.
  destruct fileExtension as [[|c h]|]; try discriminate; reflexivity.
Qed.

Lemma first_signature_cases (d : bytes) :
  (begins_with [255; 216; 255] d = true -> first_signature d = Some (lit ".jpg"))
  /\ (begins_with [137; 80; 78; 71] d = true ->
      first_signature d = Some (lit ".png"))
  /\ (begins_with [71; 73; 70] d = true -> first_signature d = Some (lit ".gif"))
  /\ (begins_with [66; 77] d = true -> first_signature d = Some (lit ".bmp"))
  /\ (begins_with [255; 216; 255] d = false ->
      begins_with [137; 80; 78; 71] d = false ->
      begins_with [71; 73; 70] d = false ->
      begins_with [66; 77] d = false -> first_signature d = None).
Proof.
  unfold first_signature, signatures.
  destruct d as [|a [|b [|c [|e r]]]]; cbn;
    repeat match goal with
           | |- context [?x =? ?v] =>
             let E := fresh "E" in destruct (x =? v) eqn:E; cbn
           end; reflect_bool; subst; repeat split; intros;
    try reflexivity; try discriminate.
Qed.

(** C8. For a base64 request without extension hint that decodes to a
    non-empty buffer and is written, the extension in the name of the stored
    file is that of the first signature, in the order FF D8 FF (.jpg),
    89 50 4E 47 (.png), 47 49 46 (.gif), 42 4D (.bmp), that the decoded bytes
    begin with, and .bin when they begin with none of them. *)
Theorem base64_signature_extension (P : Platform) (data fieldname : jsstring)
    (fileExtension : option jsstring) (w : World) (d : bytes) :
  truthy fileExtension = false ->
  decode P data (lit "base64") = Return d -> d <> [] -> disk w = None ->
  exists ext : jsstring,
    processEncodedData P data (lit "base64") fieldname fileExtension w
    = (Return (Success fieldname (lit "base64") (N.of_nat (length d))
                 (stored_path P w fieldname (lit "base64") ext)
                 (N.of_nat (length data))),
       with_files w
         (<[stored_path P w fieldname (lit "base64") ext := d]> (files w)))
    /\ ext = default (lit ".bin") (first_signature d)
    /\ (begins_with [255; 216; 255] d = true -> ext = lit ".jpg")
    /\ (begins_with [137; 80; 78; 71] d = true -> ext = lit ".png")
    /\ (begins_with [71; 73; 70] d = true -> ext = lit ".gif")
    /\ (begins_with [66; 77] d = true -> ext = lit ".bmp")
    /\ (begins_with [255; 216; 255] d = false ->
        begins_with [137; 80; 78; 71] d = false ->
        begins_with [71; 73; 70] d = false ->
        begins_with [66; 77] d = false -> ext = lit ".bin").
Proof.
  intros Ht Hd Hne Hw.
  exists (default (lit ".bin") (first_signature d)).
  split.
  - rewrite (decode_stored P _ _ fieldname fileExtension w d Hd Hne Hw).
    cbv zeta. rewrite (determine_extension_no_hint _ _ Ht). reflexivity.
  - split; [reflexivity|].
    destruct (first_signature_cases d) as (H1 & H2 & H3 & H4 & H5).
    repeat split; intros.
    + rewrite H1; auto.
    + rewrite H2; auto.
    + rewrite H3; auto.
    + rewrite H4; auto.
    + rewrite H5; auto.
Qed.

Lemma base64_signature_jpeg :
  truthy None = false
  /\ decode demo (lit "/9j/4A==") (lit "base64") = Return [255; 216; 255; 224]
  /\ fst (processEncodedData demo (lit "/9j/4A==") (lit "base64") (lit "file1")
            None (fresh 1700000000000))
     = Return (Success (lit "file1") (lit "base64") 4
                 (lit "/srv/uploads/1700000000000-file1-base64.jpg") 8).
Proof.
  split; [reflexivity|]. split; [reflexivity|].
  destruct (base64_signature_extension demo (lit "/9j/4A==") (lit "file1") None
              (fresh 1700000000000) [255; 216; 255; 224] eq_refl eq_refl
              ltac:(discriminate) eq_refl) as (ext & Hr & _ & Hj & _).
  rewrite Hr, (Hj eq_refl). reflexivity.
Defined.

Lemma normalize_extension_shape (h : jsstring) :
  normalize_extension h
  = 46 :: List.filter is_ext_char (if starts_with_dot h then tail h else h).
Proof.
  unfold normalize_extension, starts_with_dot.
  destruct h as [|c h]; [reflexivity|].
  destruct (c =? 46) eqn:E; [|reflexivity].
  reflect_bool. subst c. reflexivity.
Qed.

Lemma normalize_extension_chars (h : jsstring) :
  Forall (fun c => is_ext_char c = true) (normalize_extension h).
Proof.
  unfold normalize_extension. apply List.Forall_forall. intros c Hc.
  apply filter_In in Hc. tauto.
Qed.

(** C9, as stated, fails in two ways. A hint that already begins with two
    dots keeps both, so the extension does not have a single leading dot; and
    a hint that is the empty string counts as absent, so the signature of the
    decoded bytes decides. *)
Lemma extension_hint_not_normalized :
  fst (processEncodedData demo (lit "48656c6c6f") (lit "hex") (lit "file1")
         (Some (lit "..jpg")) (fresh 1700000000000))
  = Return (Success (lit "file1") (lit "hex") 5
              (lit "/srv/uploads/1700000000000-file1-hex..jpg") 10)
  /\ fst (processEncodedData demo (lit "/9j/4A==") (lit "base64") (lit "file1")
            (Some (lit "")) (fresh 1700000000000))
     = Return (Success (lit "file1") (lit "base64") 4
                 (lit "/srv/uploads/1700000000000-file1-base64.jpg") 8).
Proof. split; reflexivity. Qed.

(** C9, amended. When the extension hint is a non-empty string, then under
    every encoding the extension in the name of the stored file is the hint
    with a dot put in front unless it begins with one, and with every
    character outside [A-Za-z0-9.] removed afterwards; it begins with a dot
    (more than one if the hint does), and neither the signature of the bytes
    nor .bin is used. *)
Theorem extension_hint_used (P : Platform)
    (data encoding fieldname hint : jsstring) (w : World) (d : bytes) :
  hint <> [] ->
  decode P data encoding = Return d -> d <> [] -> disk w = None ->
  let ext :=
    List.filter is_ext_char
      (if starts_with_dot hint then hint else lit "." ++ hint) in
  processEncodedData P data encoding fieldname (Some hint) w
  = (Return (Success fieldname encoding (N.of_nat (length d))
               (stored_path P w fieldname encoding ext)
               (N.of_nat (length data))),
     with_files w (<[stored_path P w fieldname encoding ext := d]> (files w)))
  /\ ext = 46 :: List.filter is_ext_char
                   (if starts_with_dot hint then tail hint else hint)
  /\ Forall (fun c => is_ext_char c = true) ext.
Proof.
  intros Hh Hd Hne Hw ext. split; [|split].
  - rewrite (decode_stored P _ _ fieldname (Some hint) w d Hd Hne Hw).
    cbv zeta.
    assert (He : determine_extension (Some hint) encoding d = ext).
    { unfold determine_extension. destruct hint as [|c h]; [congruence|].
      reflexivity. }
    rewrite He. reflexivity.
  - apply normalize_extension_shape.
  - apply normalize_extension_chars.
Qed.

Lemma extension_hint_txt :
  lit "txt" <> []
  /\ fst (processEncodedData demo (lit "/9j/4A==") (lit "base64") (lit "file1")
            (Some (lit "txt")) (fresh 1700000000000))
     = Return (Success (lit "file1") (lit "base64") 4
                 (lit "/srv/uploads/1700000000000-file1-base64.txt") 8).
Proof.
  split; [discriminate|].
  destruct (extension_hint_used demo (lit "/9j/4A==") (lit "base64")
              (lit "file1") (lit "txt") (fresh 1700000000000)
              [255; 216; 255; 224] ltac:(discriminate) eq_refl
              ltac:(discriminate) eq_refl) as (Hr & _).
  rewrite Hr. reflexivity.
Defined.

(** *** Base64 payloads *)

Lemma decode_base64_eq (P : Platform) (data : jsstring) :
  decode P data (lit "base64") = decode_base64 P data.
Proof. reflexivity. Qed.

(** A string that passes the base64 validation contains neither [-] nor [_],
    so the retry decodes the very same string. *)
Lemma validated_has_no_url_safe_character (s : jsstring) :
  test_base64 s = true -> replace_all 95 47 (replace_all 45 43 s) = s.
Proof.
  unfold test_base64, replace_all. rewrite map_map.
  induction s as [|c s IH]; [reflexivity|]. cbn [skip_while map].
  destruct (is_base64_char c) eqn:E.
  - intros H. rewrite (IH H). f_equal.
    unfold is_base64_char, is_upper, is_lower, is_digit, in_range in E.
    destruct (c =? 45) eqn:E1; [reflect_bool; lia|].
    destruct (c =? 95) eqn:E2; [reflect_bool; lia|]. reflexivity.
  - intros H. reflect_bool.
    assert (Hs : c :: s = [61] \/ c :: s = [61; 61]).
    { repeat match goal with
             | H : _ \/ _ |- _ => destruct H
             | H : bool_decide _ = true |- _ => apply bool_decide_eq_true in H
             end; try discriminate; auto. }
    destruct Hs as [Hs|Hs]; injection Hs as -> ->; reflexivity.
Qed.

Lemma standard_char (c : N) :
  is_base64_char c = true ->
  (c mod 256 =? 61) = false /\ unbase64 c = Some (standard_value c).
Proof.
  intros H.
  assert (Hc : c mod 256 = c).
  { apply N.mod_small.
    unfold is_base64_char, is_upper, is_lower, is_digit, in_range in H.
    reflect_bool. lia. }
  unfold unbase64. cbv zeta. rewrite Hc. clear Hc.
  unfold is_base64_char, standard_value in *. split.
  - apply N.eqb_neq. intros ->. discriminate H.
  - destruct (is_upper c); [reflexivity|].
    destruct (is_lower c); [reflexivity|].
    destruct (is_digit c); [reflexivity|].
    cbn [orb] in H. destruct (c =? 43) eqn:E; [reflexivity|].
    cbn [orb] in H. reflect_bool. subst c. reflexivity.
Qed.

(** On a string that passes the validation, the decoder of Node.js reads the
    characters before the padding, each with its value in the standard
    alphabet. *)
Lemma validated_sextets (s : jsstring) :
  test_base64 s = true ->
  base64_sextets s = map standard_value (take_while is_base64_char s).
Proof.
  unfold test_base64.
  induction s as [|c s IH]; [reflexivity|].
  cbn [skip_while take_while base64_sextets].
  destruct (is_base64_char c) eqn:E.
  - intros H. destruct (standard_char c E) as [H1 H2].
    rewrite H1, H2, (IH H). reflexivity.
  - intros H. reflect_bool.
    assert (Hc : c = 61).
    { repeat match goal with
             | H : _ \/ _ |- _ => destruct H
             | H : bool_decide _ = true |- _ => apply bool_decide_eq_true in H
             end; congruence. }
    subst c. reflexivity.
Qed.

(** C2. Under base64 the payload is first stripped of white space. If the
    rest does not match [/^[A-Za-z0-9+/]*={0,2}$/] the outcome is the failure
    "Invalid base64 format"; else if its length is not a multiple of 4, the
    failure "Invalid base64 string length"; else it is handed to the base64
    decoder of the platform. If that throws, the decoder is called once more
    on the string with [-] replaced by [+] and [_] by [/]; if that throws
    too, the outcome is a failure whose message contains the message of the
    first error. With the decoder of Node.js a validated string decodes to
    the bytes of its characters before the padding, read in the standard
    alphabet; "SGVsbG8=" decodes to the five bytes of "Hello", and "SGVsbG8"
    gives "Invalid base64 string length". *)
Theorem base64_decoding (P : Platform) (data fieldname : jsstring)
    (fileExtension : option jsstring) (w : World) :
  let clean := List.filter (fun c => negb (is_space c)) data in
  let url_safe := replace_all 95 47 (replace_all 45 43 clean) in
  let run := processEncodedData P data (lit "base64") fieldname fileExtension w in
  (test_base64 clean = false ->
   run = (Return (Failure fieldname (lit "base64")
                    (lit "Failed to process base64 data: Invalid base64 format")),
          w))
  /\ (test_base64 clean = true -> (length clean mod 4)%nat <> 0%nat ->
      run = (Return (Failure fieldname (lit "base64")
                       (lit "Failed to process base64 data: Invalid base64 string length")),
             w))
  /\ (test_base64 clean = true -> (length clean mod 4)%nat = 0%nat ->
      (forall b, base64_decoder P clean = Return b ->
                 decode P data (lit "base64") = Return b)
      /\ (forall m b, base64_decoder P clean = Throw m ->
                      base64_decoder P url_safe = Return b ->
                      decode P data (lit "base64") = Return b)
      /\ (forall m m', base64_decoder P clean = Throw m ->
                       base64_decoder P url_safe = Throw m' ->
                       run = (Return (Failure fieldname (lit "base64")
                                        (lit "Failed to process base64 data: Base64 decoding failed: " ++ m)),
                              w)))
  /\ (base64_decoder P = Node.buffer_from_base64 ->
      test_base64 clean = true -> (length clean mod 4)%nat = 0%nat ->
      decode P data (lit "base64")
      = Return (bytes_of_sextets
                  (map standard_value (take_while is_base64_char clean))))
  /\ (base64_decoder P = Node.buffer_from_base64 ->
      decode P (lit "SGVsbG8=") (lit "base64") = Return (lit "Hello"))
  /\ processEncodedData P (lit "SGVsbG8") (lit "base64") fieldname
       fileExtension w
     = (Return (Failure fieldname (lit "base64")
                  (lit "Failed to process base64 data: Invalid base64 string length")),
        w).
Proof.
  intros clean url_safe run. subst run.
  assert (Hdec : decode P data (lit "base64")
                 = if negb (test_base64 clean) then Throw msg_base64_format
                   else if negb (length clean mod 4 =? 0)%nat
                        then Throw msg_base64_length
                        else match base64_decoder P clean with
                             | Return b => Return b
                             | Throw m =>
                               match base64_decoder P url_safe with
                               | Return b => Return b
                               | Throw _ =>
                                 Throw (lit "Base64 decoding failed: " ++ m)
                               end
                             end) by reflexivity.
  split; [|split; [|split; [|split; [|split]]]].
  - intros Ht. rewrite Ht in Hdec.
    rewrite (decode_throw P _ _ _ _ _ _ Hdec). reflexivity.
  - intros Ht Hl. rewrite Ht in Hdec.
    apply Nat.eqb_neq in Hl. rewrite Hl in Hdec.
    rewrite (decode_throw P _ _ _ _ _ _ Hdec). reflexivity.
  - intros Ht Hl. rewrite Ht in Hdec.
    apply Nat.eqb_eq in Hl. rewrite Hl in Hdec. cbn [negb] in Hdec.
    split; [|split].
    + intros b Hb. rewrite Hdec, Hb. reflexivity.
    + intros m b Hm Hb. rewrite Hdec, Hm, Hb. reflexivity.
    + intros m m' Hm Hm'. rewrite Hm, Hm' in Hdec.
      rewrite (decode_throw P _ _ _ _ _ _ Hdec). reflexivity.
  - intros HP Ht Hl. rewrite Ht in Hdec.
    apply Nat.eqb_eq in Hl. rewrite Hl in Hdec. cbn [negb] in Hdec.
    rewrite Hdec, HP. unfold buffer_from_base64.
    rewrite (validated_sextets clean Ht). reflexivity.
  - intros HP. rewrite decode_base64_eq. unfold decode_base64.
    rewrite HP. reflexivity.
  - rewrite (decode_throw P _ _ _ _ _ msg_base64_length); reflexivity.
Qed.

Lemma base64_decoding_hello :
  decode demo (lit "SGVsbG8=") (lit "base64") = Return (lit "Hello")
  /\ processEncodedData demo (lit "SGVsbG8") (lit "base64") (lit "file1") None
       (fresh 0)
     = (Return (Failure (lit "file1") (lit "base64")
                  (lit "Failed to process base64 data: Invalid base64 string length")),
        fresh 0).
Proof.
  destruct (base64_decoding demo (lit "SGVsbG8=") (lit "file1") None (fresh 0))
    as (_ & _ & _ & _ & Hh & Hl).
  split; [apply Hh; reflexivity | exact Hl].
Defined.

(** *** Round trips: from bytes to text and back *)

(** A property of the numbers below [n], checked by running through them. *)
Lemma below_forall (n : nat) (Q : N -> bool) :
  forallb Q (map N.of_nat (seq 0 n)) = true ->
  forall v, v < N.of_nat n -> Q v = true.
Proof.
  intros H v Hv. rewrite forallb_forall in H. apply H.
  apply in_map_iff. exists (N.to_nat v). split; [lia|]. apply in_seq. lia.
Qed.

Lemma in_range_true (lo hi c : N) : lo <= c <= hi -> in_range lo hi c = true.
Proof.
  intros [H1 H2]. unfold in_range. apply andb_true_iff.
  split; apply N.leb_le; assumption.
Qed.

Lemma in_range_false (lo hi c : N) :
  c < lo \/ hi < c -> in_range lo hi c = false.
Proof.
  intros H. unfold in_range. apply andb_false_iff.
  destruct H; [left | right]; apply N.leb_gt; assumption.
Qed.

(** Decide the comparisons that occur in the goal with [lia]. *)
Ltac compare_by_lia :=
  repeat match goal with
  | |- context [?a <? ?b] =>
    first [ rewrite (proj2 (N.ltb_lt a b)) by lia
          | rewrite (proj2 (N.ltb_ge a b)) by lia ]
  | |- context [?a <=? ?b] =>
    first [ rewrite (proj2 (N.leb_le a b)) by lia
          | rewrite (proj2 (N.leb_gt a b)) by lia ]
  | |- context [?a =? ?b] =>
    first [ rewrite (proj2 (N.eqb_eq a b)) by lia
          | rewrite (proj2 (N.eqb_neq a b)) by lia ]
  end.

Ltac list_eq_by_lia :=
  repeat (apply (f_equal2 (@cons N)); [lia|]); try reflexivity; try assumption.

Lemma latin1_round_trip (B : bytes) :
  is_bytes B -> buffer_from_latin1 (to_string_latin1 B) = B.
Proof.
  unfold buffer_from_latin1, to_string_latin1.
  induction 1 as [|b B Hb _ IH]; cbn; [reflexivity|].
  rewrite IH, N.mod_small by assumption. reflexivity.
Qed.

Lemma ascii_round_trip (B : bytes) :
  forallb (fun b => b <? 128) B = true ->
  buffer_from_latin1 (to_string_ascii B) = B.
Proof.
  unfold buffer_from_latin1, to_string_ascii.
  induction B as [|b B IH]; cbn; [reflexivity|].
  intros H. reflect_bool. destruct H as [Hb HB].
  rewrite (IH HB). f_equal. lia.
Qed.

Lemma utf16le_round_trip (B : bytes) :
  is_bytes B -> Nat.even (length B) = true ->
  buffer_from_utf16le (to_string_utf16le B) = B.
Proof.
  unfold buffer_from_utf16le.
  induction B as [| x | x y B IH] using pair_ind; intros HB He.
  - reflexivity.
  - discriminate.
  - inversion_clear HB as [|? ? Hx HB']. inversion_clear HB' as [|? ? Hy HB].
    cbn [to_string_utf16le flat_map app]. rewrite (IH HB He).
    list_eq_by_lia.
Qed.

Lemma hex_digit_round_trip (v : N) :
  v < 16 ->
  hex_value (hex_digit v) = Some v /\ is_hex_digit (hex_digit v) = true.
Proof.
  intros Hv.
  pose (Q := fun v => bool_decide (hex_value (hex_digit v) = Some v)
                      && is_hex_digit (hex_digit v)).
  assert (HQ : Q v = true) by (apply (below_forall 16); [reflexivity | exact Hv]).
  unfold Q in HQ. apply andb_true_iff in HQ as [H1 H2].
  apply bool_decide_eq_true in H1. auto.
Qed.

Lemma hex_round_trip (B : bytes) :
  is_bytes B ->
  hex_digits (to_string_hex B) /\ buffer_from_hex (to_string_hex B) = B.
Proof.
  unfold to_string_hex, hex_digits.
  induction 1 as [|b B Hb _ [IH1 IH2]]; cbn [flat_map app];
    [split; [constructor | reflexivity]|].
  destruct (hex_digit_round_trip (b / 16)) as [Hh1 Hh2]; [lia|].
  destruct (hex_digit_round_trip (b mod 16)) as [Hl1 Hl2]; [lia|].
  split.
  - repeat (constructor; [assumption|]). exact IH1.
  - cbn [buffer_from_hex]. rewrite Hh1, Hl1, IH2. f_equal. lia.
Qed.

(** Induction over a list three elements at a time. *)
Lemma triple_ind {A} (Q : list A -> Prop) :
  Q [] -> (forall x, Q [x]) -> (forall x y, Q [x; y]) ->
  (forall x y z l, Q l -> Q (x :: y :: z :: l)) ->
  forall l, Q l.
Proof.
  intros H0 H1 H2 H3.
  assert (H : forall l, Q l /\ (forall x, Q (x :: l))
                        /\ (forall x y, Q (x :: y :: l))).
  { induction l as [|z l (IH1 & IH2 & IH3)]; repeat split; auto. }
  intros l. apply H.
Qed.

(** What the decoder and the validation see of a character produced by the
    encoder. *)
Lemma base64_char_facts (v : N) :
  v < 64 ->
  unbase64 (base64_char v) = Some v
  /\ (base64_char v mod 256 =? 61) = false
  /\ is_base64_char (base64_char v) = true
  /\ is_space (base64_char v) = false.
Proof.
  intros Hv.
  pose (Q := fun v => bool_decide (unbase64 (base64_char v) = Some v)
                      && negb (base64_char v mod 256 =? 61)
                      && is_base64_char (base64_char v)
                      && negb (is_space (base64_char v))).
  assert (HQ : Q v = true) by (apply (below_forall 64); [reflexivity | exact Hv]).
  unfold Q in HQ. rewrite !andb_true_iff, !negb_true_iff in HQ.
  destruct HQ as [[[H1 H2] H3] H4]. apply bool_decide_eq_true in H1. auto.
Qed.

Ltac base64_chars x y z :=
  try (destruct (base64_char_facts (x / 4)) as (? & ? & ? & ?); [lia|]);
  try (destruct (base64_char_facts ((x mod 4) * 16)) as (? & ? & ? & ?); [lia|]);
  try (destruct (base64_char_facts ((x mod 4) * 16 + y / 16))
         as (? & ? & ? & ?); [lia|]);
  try (destruct (base64_char_facts ((y mod 16) * 4)) as (? & ? & ? & ?); [lia|]);
  try (destruct (base64_char_facts ((y mod 16) * 4 + z / 64))
         as (? & ? & ? & ?); [lia|]);
  try (destruct (base64_char_facts (z mod 64)) as (? & ? & ? & ?); [lia|]).

Ltac rewrite_char_facts :=
  repeat match goal with
  | H : unbase64 _ = _ |- _ => rewrite H; clear H
  | H : (base64_char _ mod 256 =? 61) = _ |- _ => rewrite H; clear H
  | H : is_base64_char _ = _ |- _ => rewrite H; clear H
  | H : is_space _ = _ |- _ => rewrite H; clear H
  end.

Lemma base64_round_trip (B : bytes) :
  is_bytes B ->
  bytes_of_sextets (base64_sextets (to_string_base64 B)) = B.
Proof.
  induction B as [| x | x y | x y z B IH] using triple_ind; intros HB.
  - reflexivity.
  - inversion_clear HB as [|? ? Hx _].
    base64_chars x x x. cbn [to_string_base64 base64_sextets].
    rewrite_char_facts. cbn. list_eq_by_lia.
  - inversion_clear HB as [|? ? Hx HB']. inversion_clear HB' as [|? ? Hy _].
    base64_chars x y y. cbn [to_string_base64 base64_sextets].
    rewrite_char_facts. cbn. list_eq_by_lia.
  - inversion_clear HB as [|? ? Hx HB']. inversion_clear HB' as [|? ? Hy HB''].
    inversion_clear HB'' as [|? ? Hz HB]. specialize (IH HB).
    base64_chars x y z. cbn [to_string_base64 base64_sextets].
    rewrite_char_facts. cbn [bytes_of_sextets]. list_eq_by_lia.
Qed.

(** The text produced by the encoder passes the checks of the source: it
    contains no white space, it matches the pattern and its length is a
    multiple of 4. *)
Lemma base64_text_validates (B : bytes) :
  is_bytes B ->
  remove_spaces (to_string_base64 B) = to_string_base64 B
  /\ test_base64 (to_string_base64 B) = true
  /\ (length (to_string_base64 B) mod 4)%nat = 0%nat.
Proof.
  unfold test_base64, remove_spaces.
  induction B as [| x | x y | x y z B IH] using triple_ind; intros HB.
  - repeat split.
  - inversion_clear HB as [|? ? Hx _].
    base64_chars x x x. cbn [to_string_base64 List.filter skip_while].
    rewrite_char_facts. repeat split.
  - inversion_clear HB as [|? ? Hx HB']. inversion_clear HB' as [|? ? Hy _].
    base64_chars x y y. cbn [to_string_base64 List.filter skip_while].
    rewrite_char_facts. repeat split.
  - inversion_clear HB as [|? ? Hx HB']. inversion_clear HB' as [|? ? Hy HB''].
    inversion_clear HB'' as [|? ? Hz HB].
    destruct (IH HB) as (IH1 & IH2 & IH3).
    base64_chars x y z. cbn [to_string_base64 List.filter skip_while length].
    rewrite_char_facts. cbn [negb]. rewrite IH1. repeat split; [exact IH2|].
    replace (S (S (S (S (length (to_string_base64 B))))))
      with (length (to_string_base64 B) + 1 * 4)%nat by lia.
    rewrite Nat.Div0.mod_add. exact IH3.
Qed.

Lemma decode_base64_text (join : jsstring -> jsstring -> jsstring)
    (dir : jsstring) (B : bytes) :
  is_bytes B ->
  decode_base64 (node join dir) (to_string_base64 B) = Return B.
Proof.
  intros HB. destruct (base64_text_validates B HB) as (H1 & H2 & H3).
  unfold decode_base64.
  rewrite H1, H2, H3. cbn. unfold buffer_from_base64.
  rewrite (base64_round_trip B HB). reflexivity.
Qed.

(** UTF-8: one well-formed sequence of one to four bytes at a time. *)

Lemma not_surrogate (c : N) :
  c < 55296 \/ 57343 < c ->
  is_high_surrogate c = false /\ is_low_surrogate c = false.
Proof.
  intros H. unfold is_high_surrogate, is_low_surrogate.
  split; apply in_range_false; lia.
Qed.

Lemma utf8_one (b0 : N) : b0 < 128 -> utf8_bytes b0 = [b0].
Proof. intros H. unfold utf8_bytes. compare_by_lia. reflexivity. Qed.

Lemma utf8_two (b0 b1 : N) :
  194 <= b0 < 224 -> 128 <= b1 < 192 ->
  let cp := (b0 - 192) * 64 + (b1 - 128) in
  cp < 2048 /\ utf8_bytes cp = [b0; b1].
Proof.
  intros H0 H1 cp. subst cp. split; [lia|].
  unfold utf8_bytes. compare_by_lia. list_eq_by_lia.
Qed.

Lemma utf8_three (b0 b1 b2 : N) :
  224 <= b0 < 240 -> 128 <= b1 < 192 -> 128 <= b2 < 192 ->
  let cp := (b0 - 224) * 4096 + (b1 - 128) * 64 + (b2 - 128) in
  2048 <= cp -> cp < 65536 /\ utf8_bytes cp = [b0; b1; b2].
Proof.
  intros H0 H1 H2 cp Hcp. subst cp. split; [lia|].
  unfold utf8_bytes. compare_by_lia. list_eq_by_lia.
Qed.

Lemma utf8_four (b0 b1 b2 b3 : N) :
  240 <= b0 < 245 -> 128 <= b1 < 192 -> 128 <= b2 < 192 -> 128 <= b3 < 192 ->
  let cp := (b0 - 240) * 262144 + (b1 - 128) * 4096 + (b2 - 128) * 64
            + (b3 - 128) in
  65536 <= cp -> cp < 1114112 ->
  exists hi lo,
    utf16_units cp = [hi; lo]
    /\ is_high_surrogate hi = true /\ is_low_surrogate lo = true
    /\ utf8_bytes (65536 + (hi - 55296) * 1024 + (lo - 56320))
       = [b0; b1; b2; b3].
Proof.
  intros H0 H1 H2 H3 cp Hlo Hhi.
  exists (55296 + (cp - 65536) / 1024), (56320 + (cp - 65536) mod 1024).
  split; [unfold utf16_units; compare_by_lia; reflexivity|].
  split; [apply in_range_true; lia|].
  split; [apply in_range_true; lia|].
  replace (65536 + (55296 + (cp - 65536) / 1024 - 55296) * 1024
           + (56320 + (cp - 65536) mod 1024 - 56320)) with cp by lia.
  subst cp. unfold utf8_bytes. compare_by_lia. list_eq_by_lia.
Qed.

Lemma continuation_range (b : N) :
  is_continuation b = true -> 128 <= b < 192.
Proof. unfold is_continuation. intros H. reflect_bool. lia. Qed.

Lemma utf8_round_trip_bounded (n : nat) :
  forall (B : bytes) (s : jsstring),
    (length B <= n)%nat -> to_string_utf8 B = Some s -> buffer_from_utf8 s = B.
Proof.
  induction n as [|n IH]; intros B s Hn Hs.
  - destruct B; [injection Hs as <-; reflexivity | cbn in Hn; lia].
  - destruct B as [|b0 r0]; [injection Hs as <-; reflexivity|].
    cbn [to_string_utf8] in Hs. cbn [length] in Hn.
    destruct (b0 <? 128) eqn:E0.
    { destruct (to_string_utf8 r0) as [t|] eqn:Er; [|discriminate].
      injection Hs as <-. reflect_bool.
      destruct (not_surrogate b0) as [Hh Hl]; [lia|].
      cbn [buffer_from_utf8]. rewrite Hh, Hl, (utf8_one b0 E0).
      cbn [app]. f_equal. apply IH; [lia | exact Er]. }
    destruct r0 as [|b1 r1]; [discriminate|]. cbn [length] in Hn.
    destruct ((194 <=? b0) && (b0 <? 224)) eqn:E1.
    { destruct (is_continuation b1) eqn:C1; [|discriminate].
      destruct (to_string_utf8 r1) as [t|] eqn:Er; [|discriminate].
      injection Hs as <-. apply continuation_range in C1. reflect_bool.
      destruct (utf8_two b0 b1) as [Hcp Hb]; [lia | lia |].
      destruct (not_surrogate ((b0 - 192) * 64 + (b1 - 128))) as [Hh Hl]; [lia|].
      cbn [buffer_from_utf8]. rewrite Hh, Hl, Hb.
      cbn [app]. do 2 f_equal. apply IH; [lia | exact Er]. }
    destruct r1 as [|b2 r2]; [discriminate|]. cbn [length] in Hn.
    destruct ((224 <=? b0) && (b0 <? 240)) eqn:E2.
    { cbv zeta in Hs.
      destruct (is_continuation b1) eqn:C1; [|discriminate].
      destruct (is_continuation b2) eqn:C2; [|discriminate].
      cbn [andb] in Hs.
      destruct (2048 <=? _) eqn:Hmin in Hs; [|discriminate].
      destruct (in_range 55296 57343 _) eqn:Hsur in Hs; [discriminate|].
      cbn [andb negb] in Hs.
      destruct (to_string_utf8 r2) as [t|] eqn:Er; [|discriminate].
      injection Hs as <-.
      apply continuation_range in C1. apply continuation_range in C2.
      unfold in_range in Hsur. reflect_bool.
      destruct (utf8_three b0 b1 b2) as [Hcp Hb]; [lia | lia | lia | lia |].
      destruct (not_surrogate
                  ((b0 - 224) * 4096 + (b1 - 128) * 64 + (b2 - 128)))
        as [Hh Hl]; [lia|].
      cbn [buffer_from_utf8]. rewrite Hh, Hl, Hb.
      cbn [app]. do 3 f_equal. apply IH; [lia | exact Er]. }
    destruct r2 as [|b3 r3]; [discriminate|]. cbn [length] in Hn.
    destruct ((240 <=? b0) && (b0 <? 245)) eqn:E3; [|discriminate].
    cbv zeta in Hs.
    destruct (is_continuation b1) eqn:C1; [|discriminate].
    destruct (is_continuation b2) eqn:C2; [|discriminate].
    destruct (is_continuation b3) eqn:C3; [|discriminate].
    cbn [andb] in Hs.
    destruct (65536 <=? _) eqn:Hmin in Hs; [|discriminate].
    destruct (_ <? 1114112) eqn:Hmax in Hs; [|discriminate].
    cbn [andb] in Hs.
    destruct (to_string_utf8 r3) as [t|] eqn:Er; [|discriminate].
    injection Hs as <-.
    apply continuation_range in C1. apply continuation_range in C2.
    apply continuation_range in C3. reflect_bool.
    destruct (utf8_four b0 b1 b2 b3) as (hi & lo & Hu & Hh & Hl & Hb);
      [lia | lia | lia | lia | lia | lia |].
    rewrite Hu. cbn [app buffer_from_utf8]. rewrite Hh, Hl, Hb.
    cbn [app]. do 4 f_equal. apply IH; [lia | exact Er].
Qed.

Lemma utf8_round_trip (B : bytes) (s : jsstring) :
  to_string_utf8 B = Some s -> buffer_from_utf8 s = B.
Proof. apply (utf8_round_trip_bounded (length B)). lia. Qed.

(** C6, as stated, fails for the empty byte sequence under hex: its text is
    the empty string, which the hex validation rejects. *)
Lemma empty_hex_round_trip_fails :
  is_bytes [] /\ canonical_text Hex [] = Some []
  /\ decode demo [] (lit "hex") = Throw msg_invalid_hex
  /\ decode demo [] (lit "hex") <> Return [].
Proof.
  split; [constructor|]. split; [reflexivity|].
  split; [reflexivity | discriminate].
Qed.

(** C6, amended. For every accepted encoding and every byte sequence that
    can be represented in it (any bytes for binary, hex and base64; bytes
    below 128 for ascii; an even number of bytes for utf-16le and ucs2;
    well-formed UTF-8 for utf8), except the empty sequence under hex, the
    [switch] of [processEncodedData] run on the text that
    [Buffer.toString] gives for the bytes returns exactly these bytes; and
    when the bytes are not empty and the disk works, the whole call stores
    exactly these bytes. *)
Theorem decode_canonical_text (join : jsstring -> jsstring -> jsstring)
    (dir encoding : jsstring) (kind : EncodingKind) (B : bytes)
    (s : jsstring) :
  switch_case encoding = Some kind ->
  is_bytes B -> (kind = Hex -> B <> []) ->
  canonical_text kind B = Some s ->
  decode (node join dir) s encoding = Return B
  /\ (B <> [] ->
      forall (fieldname : jsstring) (fileExtension : option jsstring)
             (w : World),
        disk w = None ->
        exists filepath,
          processEncodedData (node join dir) s encoding fieldname
            fileExtension w
          = (Return (Success fieldname encoding (N.of_nat (length B)) filepath
                       (N.of_nat (length s))),
             with_files w (<[filepath := B]> (files w)))).
Proof.
  intros Hk HB Hne Hs.
  assert (Hd : decode (node join dir) s encoding = Return B).
  { unfold decode. rewrite Hk.
    destruct kind; cbn [canonical_text] in Hs.
    - injection Hs as <-. rewrite (latin1_round_trip B HB). reflexivity.
    - destruct (forallb _ B) eqn:Ha; [|discriminate]. injection Hs as <-.
      rewrite (ascii_round_trip B Ha). reflexivity.
    - rewrite (utf8_round_trip B s Hs). reflexivity.
    - destruct (Nat.even (length B)) eqn:He; [|discriminate].
      injection Hs as <-. rewrite (utf16le_round_trip B HB He). reflexivity.
    - destruct (Nat.even (length B)) eqn:He; [|discriminate].
      injection Hs as <-. rewrite (utf16le_round_trip B HB He). reflexivity.
    - injection Hs as <-. destruct (hex_round_trip B HB) as [Hd Hr].
      assert (Ht : test_hex (to_string_hex B) = true).
      { apply test_hex_spec. split; [|exact Hd].
        destruct B as [|b B]; [exfalso; apply Hne; reflexivity | discriminate]. }
      rewrite Ht, Hr. reflexivity.
    - injection Hs as <-. apply decode_base64_text. exact HB. }
  split; [exact Hd|].
  intros Hn fieldname fileExtension w Hw. eexists.
  apply decode_stored; [exact Hd | exact Hn | exact Hw].
Qed.

Lemma decode_canonical_text_utf8 :
  let B := [72; 195; 169; 226; 130; 172; 240; 159; 152; 128] in
  let s := [72; 233; 8364; 55357; 56832] in
  is_bytes B /\ canonical_text Utf8 B = Some s
  /\ decode demo s (lit "utf8") = Return B.
Proof.
  intros B s.
  assert (HB : is_bytes B)
    by (repeat (constructor; [lia|]); constructor).
  split; [exact HB|]. split; [reflexivity|].
  apply (decode_canonical_text plain_join (lit "/srv/uploads") (lit "utf8")
           Utf8 B s); [reflexivity | exact HB | discriminate | reflexivity].
Defined.

(** ** Further properties of [processEncodedData] *)

(** *** What a call changes *)

(** A call changes the content of at most one path, the one it computes for
    its file, and it changes neither the clock nor the disk. *)
Theorem only_target_changes (P : Platform) (data encoding fieldname : jsstring)
    (fileExtension : option jsstring) (w w' : World) (o : Outcome)
    (p : jsstring) :
  processEncodedData P data encoding fieldname fileExtension w = (Return o, w') ->
  clock w' = clock w /\ disk w' = disk w
  /\ (files w' !! p <> files w !! p ->
      exists d, decode P data encoding = Return d
                /\ p = stored_path P w fieldname encoding
                         (determine_extension fileExtension encoding d)).
Proof.
  rewrite processEncodedData_eq.
  destruct (decode P data encoding) as [d|m] eqn:Hd.
  - destruct d as [|b d].
    + cbn. intros [= <- <-]. repeat split. congruence.
    + cbn [length Nat.eqb]. cbv zeta. unfold writeFileSync.
      set (q := stored_path P w fieldname encoding
                  (determine_extension fileExtension encoding (b :: d))).
      assert (Hq : forall c, files (with_files w (<[q := c]> (files w))) !! p
                             <> files w !! p ->
                             exists d0, Return (b :: d) = Return d0
                                        /\ p = stored_path P w fieldname encoding
                                                 (determine_extension
                                                    fileExtension encoding d0)).
      { intros c Hp. exists (b :: d). split; [reflexivity|].
        destruct (decide (p = q)) as [->|Hne]; [reflexivity|].
        exfalso. apply Hp. cbn. apply lookup_insert_ne. congruence. }
      destruct (disk w) as [[m|k m]|] eqn:Hdisk.
      * intros [= <- <-]. repeat split; congruence.
      * intros [= <- <-]. repeat split; [exact Hdisk | apply Hq].
      * intros [= <- <-]. repeat split; [exact Hdisk | apply Hq].
  - intros [= <- <-]. repeat split. congruence.
Qed.

Lemma only_target_changes_hello :
  let w := fresh 1700000000000 in
  let r := processEncodedData demo (lit "48656c6c6f") (lit "hex") (lit "file1")
             None w in
  clock (snd r) = clock w /\ disk (snd r) = disk w
  /\ (files (snd r) !! lit "/srv/uploads/other.bin"
      <> files w !! lit "/srv/uploads/other.bin" ->
      exists d, decode demo (lit "48656c6c6f") (lit "hex") = Return d
                /\ lit "/srv/uploads/other.bin"
                   = stored_path demo w (lit "file1") (lit "hex")
                       (determine_extension None (lit "hex") d)).
Proof.
  intros w r.
  exact (only_target_changes demo (lit "48656c6c6f") (lit "hex") (lit "file1")
           None w (snd r)
           (Success (lit "file1") (lit "hex") 5
              (lit "/srv/uploads/1700000000000-file1-hex.bin") 10)
           (lit "/srv/uploads/other.bin") eq_refl).
Defined.

(** Two calls for the same field and encoding that read the same clock value
    and get the same extension report the same path, and the file of the
    first is replaced by the file of the second. *)
Theorem same_name_overwrites (P : Platform)
    (data1 data2 encoding fieldname : jsstring)
    (fileExtension : option jsstring) (w : World) (d1 d2 : bytes) :
  decode P data1 encoding = Return d1 -> d1 <> [] ->
  decode P data2 encoding = Return d2 -> d2 <> [] ->
  determine_extension fileExtension encoding d1
  = determine_extension fileExtension encoding d2 ->
  disk w = None ->
  exists (q : jsstring) (w1 w2 : World),
    processEncodedData P data1 encoding fieldname fileExtension w
    = (Return (Success fieldname encoding (N.of_nat (length d1)) q
                 (N.of_nat (length data1))), w1)
    /\ processEncodedData P data2 encoding fieldname fileExtension w1
       = (Return (Success fieldname encoding (N.of_nat (length d2)) q
                    (N.of_nat (length data2))), w2)
    /\ files w1 !! q = Some d1 /\ files w2 !! q = Some d2.
Proof.
  intros H1 Hn1 H2 Hn2 He Hw.
  set (q := stored_path P w fieldname encoding
              (determine_extension fileExtension encoding d1)).
  exists q, (with_files w (<[q := d1]> (files w))).
  eexists. split; [|split; [|split]].
  - apply (decode_stored P data1 encoding fieldname fileExtension w d1 H1 Hn1 Hw).
  - rewrite (decode_stored P data2 encoding fieldname fileExtension _ d2 H2 Hn2);
      [|exact Hw].
    cbv zeta. unfold stored_path. cbn [clock with_files]. rewrite <- He.
    reflexivity.
  - cbn. apply lookup_insert_eq.
  - cbn. apply lookup_insert_eq.
Qed.

Lemma same_name_overwrites_hello :
  exists (q : jsstring) (w1 w2 : World),
    processEncodedData demo (lit "48656c6c6f") (lit "hex") (lit "file1") None
      (fresh 1700000000000)
    = (Return (Success (lit "file1") (lit "hex")
                 (N.of_nat (length (lit "Hello"))) q
                 (N.of_nat (length (lit "48656c6c6f")))), w1)
    /\ processEncodedData demo (lit "4279") (lit "hex") (lit "file1") None w1
       = (Return (Success (lit "file1") (lit "hex")
                    (N.of_nat (length (lit "By"))) q
                    (N.of_nat (length (lit "4279")))), w2)
    /\ files w1 !! q = Some (lit "Hello") /\ files w2 !! q = Some (lit "By").
Proof.
  exact (same_name_overwrites demo (lit "48656c6c6f") (lit "4279") (lit "hex")
           (lit "file1") None (fresh 1700000000000) (lit "Hello") (lit "By")
           eq_refl ltac:(discriminate) eq_refl ltac:(discriminate) eq_refl
           eq_refl).
Defined.

(** Signature sniffing is confined to base64: under any other encoding a
    request without extension hint gets .bin, whatever the decoded bytes
    begin with. *)
Theorem no_sniffing_outside_base64 (P : Platform)
    (data encoding fieldname : jsstring) (fileExtension : option jsstring)
    (w : World) (d : bytes) :
  encoding <> lit "base64" -> truthy fileExtension = false ->
  decode P data encoding = Return d -> d <> [] -> disk w = None ->
  processEncodedData P data encoding fieldname fileExtension w
  = (Return (Success fieldname encoding (N.of_nat (length d))
               (stored_path P w fieldname encoding (lit ".bin"))
               (N.of_nat (length data))),
     with_files w
       (<[stored_path P w fieldname encoding (lit ".bin") := d]> (files w))).
Proof.
  intros He Ht Hd Hn Hw.
  rewrite (decode_stored P _ _ fieldname fileExtension w d Hd Hn Hw).
  cbv zeta.
  assert (Hx : determine_extension fileExtension encoding d = lit ".bin").
  { unfold determine_extension. rewrite Ht.
    rewrite (bool_decide_eq_false_2 _ He).
    destruct fileExtension as [[|c h]|]; try discriminate; reflexivity. }
  rewrite Hx. reflexivity.
Qed.

Lemma no_sniffing_outside_base64_jpeg :
  lit "hex" <> lit "base64"
  /\ decode demo (lit "ffd8ffe0") (lit "hex") = Return [255; 216; 255; 224]
  /\ fst (processEncodedData demo (lit "ffd8ffe0") (lit "hex") (lit "file1")
            None (fresh 1700000000000))
     = Return (Success (lit "file1") (lit "hex") 4
                 (lit "/srv/uploads/1700000000000-file1-hex.bin") 8).
Proof.
  split; [discriminate|]. split; [reflexivity|].
  rewrite (no_sniffing_outside_base64 demo (lit "ffd8ffe0") (lit "hex")
             (lit "file1") None (fresh 1700000000000) [255; 216; 255; 224]
             ltac:(discriminate) eq_refl eq_refl ltac:(discriminate) eq_refl).
  reflexivity.
Defined.

(** *** The size of the decoded buffer *)

Lemma utf8_bytes_length (cp : N) :
  (cp < 65536 -> (1 <= length (utf8_bytes cp) <= 3)%nat)
  /\ (65536 <= cp -> length (utf8_bytes cp) = 4%nat).
Proof.
  unfold utf8_bytes. split; intros H.
  - destruct (cp <? 128); [cbn; lia|].
    destruct (cp <? 2048); [cbn; lia|].
    destruct (cp <? 65536) eqn:E; [cbn; lia|]. reflect_bool. lia.
  - compare_by_lia. reflexivity.
Qed.

Lemma buffer_from_utf8_length_bounded (n : nat) :
  forall s : jsstring,
    (length s <= n)%nat -> Forall (fun c => c < 65536) s ->
    (length s <= length (buffer_from_utf8 s) <= 3 * length s)%nat.
Proof.
  induction n as [|n IH]; intros s Hn Hs.
  - destruct s; [cbn; lia | cbn in Hn; lia].
  - destruct s as [|c r]; [cbn; lia|].
    inversion_clear Hs as [|? ? Hc Hr]. cbn [length] in Hn.
    assert (IHr := IH r ltac:(lia) Hr).
    cbn [buffer_from_utf8].
    destruct (is_high_surrogate c).
    + destruct r as [|d r']; [cbn; lia|].
      destruct (is_low_surrogate d).
      * inversion_clear Hr as [|? ? Hd Hr']. cbn [length] in Hn.
        assert (IHr' := IH r' ltac:(lia) Hr').
        rewrite length_app.
        destruct (utf8_bytes_length (65536 + (c - 55296) * 1024 + (d - 56320)))
          as [_ H4].
        rewrite H4 by lia. cbn [length]. lia.
      * rewrite length_app. cbn [replacement length] in *. lia.
    + destruct (is_low_surrogate c).
      * rewrite length_app. cbn [replacement length]. lia.
      * rewrite length_app. destruct (utf8_bytes_length c) as [H3 _].
        specialize (H3 Hc). cbn [length]. lia.
Qed.

Lemma buffer_from_utf16le_length (s : jsstring) :
  length (buffer_from_utf16le s) = (2 * length s)%nat.
Proof.
  unfold buffer_from_utf16le.
  induction s as [|c s IH]; [reflexivity|]. cbn [flat_map length app].
  rewrite IH. lia.
Qed.

Lemma base64_sextets_length (s : jsstring) :
  (length (base64_sextets s) <= length s)%nat.
Proof.
  induction s as [|c s IH]; [reflexivity|]. cbn [base64_sextets length].
  destruct (c mod 256 =? 61); [cbn; lia|].
  destruct (unbase64 c); cbn [length]; lia.
Qed.

Lemma bytes_of_sextets_length_bounded (n : nat) :
  forall l : list N,
    (length l <= n)%nat -> (4 * length (bytes_of_sextets l) <= 3 * length l)%nat.
Proof.
  induction n as [|n IH]; intros l Hn.
  - destruct l; [cbn; lia | cbn in Hn; lia].
  - destruct l as [|a [|b [|c [|d r]]]]; cbn [bytes_of_sextets length] in *;
      try lia.
    assert (IHr := IH r ltac:(lia)). lia.
Qed.

(** How the size of the decoded buffer, reported as [size], relates to the
    length of the payload, reported as [originalSize]: equal for binary and
    ascii, twice as large for utf-16le and ucs2, between once and three
    times as large for utf8, half as large (rounded down) for hex, and at
    most three quarters of the length without white space for base64. *)
Theorem decoded_size (join : jsstring -> jsstring -> jsstring)
    (dir data encoding : jsstring) (kind : EncodingKind) (d : bytes) :
  switch_case encoding = Some kind ->
  Forall (fun c => c < 65536) data ->
  decode (node join dir) data encoding = Return d ->
  match kind with
  | Binary | Ascii => length d = length data
  | Utf16LE | Ucs2 => length d = (2 * length data)%nat
  | Utf8 => (length data <= length d <= 3 * length data)%nat
  | Hex => length d = (length data / 2)%nat
  | Base64 => (4 * length d <= 3 * length (remove_spaces data))%nat
  end.
Proof.
  intros Hk Hs. unfold decode. rewrite Hk. destruct kind.
  - intros [= <-]. apply length_map.
  - intros [= <-]. apply length_map.
  - intros [= <-]. apply (buffer_from_utf8_length_bounded (length data)); auto.
  - intros [= <-]. apply buffer_from_utf16le_length.
  - intros [= <-]. apply buffer_from_utf16le_length.
  - destruct (test_hex data) eqn:Ht; [|discriminate]. intros [= <-].
    apply buffer_from_hex_length. apply test_hex_spec in Ht. tauto.
  - unfold decode_base64.
    destruct (negb (test_base64 (remove_spaces data))); [discriminate|].
    destruct (negb _); [discriminate|].
    cbn [base64_decoder node]. unfold buffer_from_base64. intros [= <-].
    pose proof (base64_sextets_length (remove_spaces data)) as H1.
    pose proof (bytes_of_sextets_length_bounded _
                  (base64_sextets (remove_spaces data)) (le_n _)) as H2.
    lia.
Qed.

Lemma decoded_size_utf8 :
  let data := [72; 233; 8364; 55357; 56832] in
  Forall (fun c => c < 65536) data
  /\ (length data <= 10 <= 3 * length data)%nat.
Proof.
  intros data.
  assert (Hs : Forall (fun c => c < 65536) data)
    by (repeat (constructor; [lia|]); constructor).
  split; [exact Hs|].
  exact (decoded_size plain_join (lit "/srv/uploads") data (lit "utf8") Utf8
           [72; 195; 169; 226; 130; 172; 240; 159; 152; 128]
           eq_refl Hs eq_refl).
Defined.

Lemma buffer_from_utf8_nonempty (s : jsstring) :
  s <> [] -> buffer_from_utf8 s <> [].
Proof.
  destruct s as [|c r]; [congruence|]. intros _. cbn [buffer_from_utf8].
  assert (Hu : forall cp t, utf8_bytes cp ++ t <> []).
  { intros cp t. unfold utf8_bytes.
    destruct (cp <? 128); [discriminate|].
    destruct (cp <? 2048); [discriminate|].
    destruct (cp <? 65536); discriminate. }
  destruct (is_high_surrogate c).
  - destruct r as [|c' r']; [discriminate|].
    destruct (is_low_surrogate c'); [apply Hu | discriminate].
  - destruct (is_low_surrogate c); [discriminate | apply Hu].
Qed.

Lemma decode_text_nonempty (P : Platform) (data encoding : jsstring)
    (kind : EncodingKind) :
  switch_case encoding = Some kind -> kind <> Hex -> kind <> Base64 ->
  data <> [] ->
  exists d, decode P data encoding = Return d /\ d <> [].
Proof.
  intros Hk Hh Hb Hd. unfold decode. rewrite Hk.
  destruct kind; try congruence; eexists; (split; [reflexivity|]);
    try (destruct data; [congruence | discriminate]).
  apply buffer_from_utf8_nonempty, Hd.
Qed.

(** Under binary, ascii, utf8, utf-16le and ucs2 nothing is validated: every
    non-empty payload is decoded to a non-empty buffer and, when the disk
    works, stored. *)
Theorem text_payload_always_stored (P : Platform)
    (data encoding fieldname : jsstring) (kind : EncodingKind)
    (fileExtension : option jsstring) (w : World) :
  switch_case encoding = Some kind -> kind <> Hex -> kind <> Base64 ->
  data <> [] -> disk w = None ->
  exists (d : bytes) (filepath : jsstring),
    d <> []
    /\ processEncodedData P data encoding fieldname fileExtension w
       = (Return (Success fieldname encoding (N.of_nat (length d)) filepath
                    (N.of_nat (length data))),
          with_files w (<[filepath := d]> (files w))).
Proof.
  intros Hk Hh Hb Hd Hw.
  destruct (decode_text_nonempty P data encoding kind Hk Hh Hb Hd)
    as (d & Hdec & Hne).
  exists d. eexists. split; [exact Hne|].
  apply (decode_stored P data encoding fieldname fileExtension w d Hdec Hne Hw).
Qed.

Lemma text_payload_always_stored_ascii :
  exists (d : bytes) (filepath : jsstring),
    d <> []
    /\ processEncodedData demo (lit "zz") (lit "ascii") (lit "file1") None
         (fresh 0)
       = (Return (Success (lit "file1") (lit "ascii") (N.of_nat (length d))
                    filepath (N.of_nat (length (lit "zz")))),
          with_files (fresh 0) (<[filepath := d]> (files (fresh 0)))).
Proof.
  exact (text_payload_always_stored demo (lit "zz") (lit "ascii") (lit "file1")
           Ascii None (fresh 0) eq_refl ltac:(discriminate)
           ltac:(discriminate) ltac:(discriminate) eq_refl).
Defined.

(** *** More on base64 *)

Lemma validated_characters (s : jsstring) :
  test_base64 s = true ->
  forall c, In c s -> is_base64_char c = true \/ c = 61.
Proof.
  unfold test_base64.
  induction s as [|a s IH]; intros Ht c Hc; [destruct Hc|].
  cbn [skip_while] in Ht. destruct (is_base64_char a) eqn:E.
  - destruct Hc as [<-|Hc]; [left; exact E | apply (IH Ht c Hc)].
  - reflect_bool.
    assert (Hs : a :: s = [61] \/ a :: s = [61; 61]).
    { repeat match goal with
             | H : _ \/ _ |- _ => destruct H
             | H : bool_decide _ = true |- _ => apply bool_decide_eq_true in H
             end; try discriminate; auto. }
    right. destruct Hs as [Hs|Hs]; rewrite Hs in Hc; cbn in Hc;
      intuition congruence.
Qed.

(** A base64 payload that contains a character which is neither white space
    nor in [A-Za-z0-9+/] nor [=] is rejected with "Invalid base64 format",
    on every platform. The characters [-] and [_] of the URL-safe alphabet
    are such characters, so a URL-safe payload never reaches the decoder. *)
Theorem foreign_character_rejected (P : Platform) (data fieldname : jsstring)
    (fileExtension : option jsstring) (w : World) (c : N) :
  In c data -> is_space c = false -> is_base64_char c = false -> c <> 61 ->
  processEncodedData P data (lit "base64") fieldname fileExtension w
  = (Return (Failure fieldname (lit "base64")
               (lit "Failed to process base64 data: Invalid base64 format")),
     w).
Proof.
  intros Hin Hs Hb He.
  assert (Ht : test_base64 (remove_spaces data) = false).
  { destruct (test_base64 (remove_spaces data)) eqn:Ht; [|reflexivity].
    exfalso.
    assert (Hc : In c (remove_spaces data)).
    { unfold remove_spaces. apply filter_In. split; [exact Hin|].
      rewrite Hs. reflexivity. }
    destruct (validated_characters _ Ht c Hc); congruence. }
  rewrite (decode_throw P _ _ _ _ _ msg_base64_format); [reflexivity|].
  rewrite decode_base64_eq. unfold decode_base64. rewrite Ht. reflexivity.
Qed.

Lemma foreign_character_rejected_url_safe :
  In 45 (lit "-_8=") /\ In 95 (lit "-_8=")
  /\ processEncodedData demo (lit "-_8=") (lit "base64") (lit "file1") None
       (fresh 0)
     = (Return (Failure (lit "file1") (lit "base64")
                  (lit "Failed to process base64 data: Invalid base64 format")),
        fresh 0).
Proof.
  assert (H : In 45 (lit "-_8=")) by (cbn; auto).
  split; [exact H|]. split; [cbn; auto|].
  exact (foreign_character_rejected demo (lit "-_8=") (lit "file1") None
           (fresh 0) 45 H eq_refl eq_refl ltac:(discriminate)).
Defined.

Lemma decode_base64_text_validated (join : jsstring -> jsstring -> jsstring)
    (dir s : jsstring) :
  test_base64 (remove_spaces s) = true ->
  (length (remove_spaces s) mod 4)%nat = 0%nat ->
  decode_base64 (node join dir) s
  = Return (bytes_of_sextets (base64_sextets (remove_spaces s))).
Proof.
  intros Ht Hl. unfold decode_base64. rewrite Ht, Hl. reflexivity.
Qed.

(** With the decoder of Node.js, the base64 text of a byte sequence is
    decoded to that sequence however it is broken up by white space (line
    breaks every 76 characters, indentation, a trailing newline). *)
Theorem wrapped_base64_accepted (join : jsstring -> jsstring -> jsstring)
    (dir s : jsstring) (B : bytes) :
  is_bytes B -> remove_spaces s = to_string_base64 B ->
  decode (node join dir) s (lit "base64") = Return B.
Proof.
  intros HB Hs. destruct (base64_text_validates B HB) as (_ & H2 & H3).
  rewrite decode_base64_eq, decode_base64_text_validated;
    rewrite Hs; auto.
  rewrite (base64_round_trip B HB). reflexivity.
Qed.

Lemma wrapped_base64_accepted_hello :
  is_bytes (lit "Hello")
  /\ decode demo [83; 71; 86; 115; 13; 10; 32; 98; 71; 56; 61; 10]
       (lit "base64")
     = Return (lit "Hello").
Proof.
  assert (HB : is_bytes (lit "Hello"))
    by (repeat (constructor; [cbn; lia|]); constructor).
  split; [exact HB|].
  exact (wrapped_base64_accepted plain_join (lit "/srv/uploads")
           [83; 71; 86; 115; 13; 10; 32; 98; 71; 56; 61; 10] (lit "Hello")
           HB eq_refl).
Defined.

(** ** The first version of the server and the validation added to it *)

Lemma space_is_skipped (c : N) :
  is_space c = true -> c <> 8239 -> c <> 8287 ->
  (c mod 256 =? 61) = false /\ unbase64 c = None.
Proof.
  unfold is_space, in_range. intros H H1 H2. reflect_bool.
  unfold unbase64, is_upper, is_lower, is_digit, in_range. cbv zeta.
  repeat match goal with
         | H : _ \/ _ |- _ => destruct H
         end;
    first [ exfalso; lia
          | split; [apply N.eqb_neq; lia | compare_by_lia; reflexivity] ].
Qed.

Lemma base64_sextets_remove_spaces (s : jsstring) :
  ~ In 8239 s -> ~ In 8287 s ->
  base64_sextets (remove_spaces s) = base64_sextets s.
Proof.
  unfold remove_spaces.
  induction s as [|c s IH]; intros H1 H2; [reflexivity|].
  cbn [List.filter base64_sextets].
  assert (IHs : base64_sextets (List.filter (fun c => negb (is_space c)) s)
                = base64_sextets s).
  { apply IH; intros Hin; [apply H1 | apply H2]; right; exact Hin. }
  destruct (is_space c) eqn:E; cbn [negb].
  - destruct (space_is_skipped c E) as [Hp Hu].
    + intros ->. apply H1. left. reflexivity.
    + intros ->. apply H2. left. reflexivity.
    + rewrite Hp, Hu. exact IHs.
  - cbn [base64_sextets]. rewrite IHs. reflexivity.
Qed.

(** The validation added in the later version only rejects, with one
    exception. Whenever the [switch] of the later version returns a buffer,
    the [switch] of the first version returns the same buffer for the same
    payload, provided that a base64 payload contains neither U+202F nor
    U+205F: the later version removes these two as white space, while the
    decoder, which the first version gives the raw payload, reads their low
    bytes as [/] and [_]. *)
Theorem validation_keeps_bytes (join : jsstring -> jsstring -> jsstring)
    (dir data encoding : jsstring) (d : bytes) :
  (encoding = lit "base64" -> ~ In 8239 data /\ ~ In 8287 data) ->
  decode (node join dir) data encoding = Return d ->
  Legacy.decode (node join dir) data encoding = Return d.
Proof.
  intros Hx. unfold decode, Legacy.decode.
  destruct (switch_case encoding) as [[]|] eqn:Hk; try (intros H; exact H).
  - destruct (negb (test_hex data)); [discriminate | intros H; exact H].
  - assert (He : encoding = lit "base64").
    { unfold switch_case in Hk.
      repeat case_bool_decide; try discriminate; assumption. }
    destruct (Hx He) as [H1 H2].
    unfold decode_base64.
    destruct (negb (test_base64 (remove_spaces data))); [discriminate|].
    destruct (negb _); [discriminate|].
    cbn [base64_decoder node]. unfold buffer_from_base64.
    rewrite (base64_sextets_remove_spaces data H1 H2). intros H. exact H.
Qed.

Lemma validation_keeps_bytes_wrapped :
  Legacy.decode demo [83; 71; 86; 115; 13; 10; 32; 98; 71; 56; 61; 10]
    (lit "base64")
  = Return (lit "Hello").
Proof.
  apply (validation_keeps_bytes plain_join (lit "/srv/uploads")
           [83; 71; 86; 115; 13; 10; 32; 98; 71; 56; 61; 10] (lit "base64")
           (lit "Hello")); [|reflexivity].
  intros _. split; cbn; intuition discriminate.
Defined.

(** The hex decoder reads the low byte as well: U+0134 and U+0138 are read
    as the digits 4 and 8. *)
Example low_byte_hex : buffer_from_hex [308; 312] = [72].
Proof. reflexivity. Qed.

(** The exception: "SGVs", U+202F, "bG8=". The later version decodes it to
    "Hello"; the first version reads the U+202F as [/]. *)
Example narrow_space_read_as_slash :
  decode demo (lit "SGVs" ++ [8239] ++ lit "bG8=") (lit "base64")
  = Return (lit "Hello")
  /\ Legacy.decode demo (lit "SGVs" ++ [8239] ++ lit "bG8=") (lit "base64")
     = Return [72; 101; 108; 253; 177; 188].
Proof. split; reflexivity. Qed.

(** The first version rejects no payload: under every accepted encoding and
    for every payload, the empty string and malformed hex or base64
    included, a file is written when the disk works; for the empty string
    it is a file without bytes. *)
Theorem legacy_accepts_every_payload
    (join : jsstring -> jsstring -> jsstring)
    (dir data encoding fieldname : jsstring) (kind : EncodingKind)
    (fileExtension : option jsstring) (w : World) :
  switch_case encoding = Some kind -> disk w = None ->
  exists (d : bytes) (filepath : jsstring),
    Legacy.processEncodedData (node join dir) data encoding fieldname
      fileExtension w
    = (Return (Legacy.Success fieldname encoding (N.of_nat (length d))
                 filepath),
       with_files w (<[filepath := d]> (files w)))
    /\ (data = [] -> d = []).
Proof.
  intros Hk Hw.
  assert (H : exists d, Legacy.decode (node join dir) data encoding = Return d
                        /\ (data = [] -> d = [])).
  { unfold Legacy.decode. rewrite Hk.
    destruct kind; eexists; (split; [reflexivity|]); intros ->; reflexivity. }
  destruct H as (d & Hd & He). exists d. eexists. split; [|exact He].
  unfold Legacy.processEncodedData, try_catch, bind, lift, ret, Date_now,
    writeFileSync.
  rewrite Hd, Hw. reflexivity.
Qed.

Lemma legacy_accepts_bad_hex :
  exists (d : bytes) (filepath : jsstring),
    Legacy.processEncodedData demo (lit "zz") (lit "hex") (lit "file1") None
      (fresh 1700000000000)
    = (Return (Legacy.Success (lit "file1") (lit "hex") (N.of_nat (length d))
                 filepath),
       with_files (fresh 1700000000000)
         (<[filepath := d]> (files (fresh 1700000000000))))
    /\ (lit "zz" = [] -> d = []).
Proof.
  exact (legacy_accepts_every_payload plain_join (lit "/srv/uploads")
           (lit "zz") (lit "hex") (lit "file1") Hex None
           (fresh 1700000000000) eq_refl eq_refl).
Defined.

(** ** The request router *)

Section RouterProperties.

Context (P : Platform) (extname : jsstring -> jsstring).

Lemma processEncodedData_outcome (data encoding fieldname : jsstring)
    (fileExtension : option jsstring) (w : World) :
  exists (o : Outcome) (w' : World),
    processEncodedData P data encoding fieldname fileExtension w = (Return o, w')
    /\ result_fieldname (Encoded o) = fieldname
    /\ clock w' = clock w /\ disk w' = disk w.
Proof.
  rewrite processEncodedData_eq.
  destruct (decode P data encoding) as [d|m].
  - destruct (length d =? 0)%nat.
    + eexists _, _. split; [reflexivity|]. repeat split.
    + cbv zeta. unfold writeFileSync.
      destruct (disk w) as [[m|k m]|] eqn:Hw;
        (eexists _, _; split; [reflexivity|]; repeat split; auto).
  - eexists _, _. split; [reflexivity|]. repeat split.
Qed.

(** The loop over the file fields: it does not throw, and it adds one element
    per field whose value is not empty, in the order of the fields. *)
Lemma process_fields_spec (body : list (jsstring * jsstring))
    (encoding : jsstring) (fields : list jsstring) :
  forall (results : list Result) (w : World),
  exists (rs : list Result) (w' : World),
    process_fields P body encoding fields results w = (Return (results ++ rs), w')
    /\ map result_fieldname rs
       = List.filter (fun k => truthy (body_get body k)) fields
    /\ Forall (fun r => exists o, r = Encoded o) rs
    /\ clock w' = clock w /\ disk w' = disk w.
Proof.
  induction fields as [|k fields IH]; intros results w.
  - exists [], w. rewrite app_nil_r. repeat split. constructor.
  - cbn [process_fields List.filter].
    destruct (body_get body k) as [[|c d]|] eqn:Hk; cbn [truthy].
    + apply IH.
    + destruct (processEncodedData_outcome (c :: d) encoding k (hint_of body k) w)
        as (o & w1 & Ho & Hf & Hc & Hd).
      destruct (IH (results ++ [Encoded o]) w1) as (rs & w' & Hr & Hn & He & Hc' & Hd').
      exists (Encoded o :: rs), w'. unfold bind. rewrite Ho, Hr.
      rewrite <- app_assoc. split; [reflexivity|].
      cbn [map]. rewrite Hf, Hn. repeat split; try congruence.
      constructor; [eexists; reflexivity | exact He].
    + apply IH.
Qed.

Lemma is_file_field_spec (key : jsstring) :
  is_file_field key
  = starts_with (lit "file") key && negb (ends_with (lit "_ext") key).
Proof.
  unfold is_file_field.
  destruct (bool_decide (key = lit "encoding")) eqn:E;
    [|rewrite andb_true_r; reflexivity].
  apply bool_decide_eq_true in E. subst key. reflexivity.
Qed.

End RouterProperties.

(** Without uploaded files [processMultipartEncodedData] does not throw,
    whatever the encoding, the platform and the disk. It returns one element
    per key of the body that begins with "file", does not end with "_ext" and
    has a non-empty value, in the order of the keys; fields with an empty
    value are skipped without an element, and the test against the key
    "encoding" excludes nothing. *)
Theorem text_fields_in_order (P : Platform) (extname : jsstring -> jsstring)
    (req : Request) (encoding : jsstring) (w : World) :
  req_files req = [] ->
  exists (results : list Result) (w' : World),
    processMultipartEncodedData P extname req encoding w = (Return results, w')
    /\ map result_fieldname results
       = List.filter (fun k => truthy (body_get (req_body req) k))
           (List.filter
              (fun k => starts_with (lit "file") k
                        && negb (ends_with (lit "_ext") k))
              (body_keys (req_body req)))
    /\ Forall (fun r => exists o, r = Encoded o) results.
Proof.
  intros Hf. unfold processMultipartEncodedData. rewrite Hf.
  destruct (process_fields_spec P (req_body req) encoding
              (file_fields (req_body req)) [] w)
    as (rs & w' & Hr & Hn & He & _).
  exists rs, w'. unfold bind, ret. rewrite Hr. split; [reflexivity|].
  split; [|exact He]. rewrite Hn. unfold file_fields. f_equal.
  apply List.filter_ext. intros k. apply is_file_field_spec.
Qed.

Lemma text_fields_in_order_example :
  let body := [(lit "file1", lit "48656c6c6f"); (lit "file1_ext", lit "txt");
               (lit "file2", lit ""); (lit "encoding", lit "hex");
               (lit "note", lit "x"); (lit "file3", lit "zz")] in
  exists (results : list Result) (w' : World),
    processMultipartEncodedData demo (fun _ => []) (mkRequest body [])
      (lit "hex") (fresh 0)
    = (Return results, w')
    /\ map result_fieldname results = [lit "file1"; lit "file3"].
Proof.
  intros body.
  destruct (text_fields_in_order demo (fun _ => []) (mkRequest body [])
              (lit "hex") (fresh 0) eq_refl) as (rs & w' & Hr & Hn & _).
  exists rs, w'. split; [exact Hr | exact Hn].
Defined.

(** The write of an uploaded file is not guarded: when the disk fails on the
    first uploaded file, the error of [fs.writeFileSync] leaves both
    [processMultipartEncodedData] and the /upload handler as an exception,
    and no text field is processed. *)
Theorem upload_write_error_escapes (P : Platform)
    (extname : jsstring -> jsstring) (req : Request) (encoding : jsstring)
    (w : World) (file : UploadedFile) (rest : list UploadedFile)
    (fault : disk_fault) :
  req_files req = file :: rest -> disk w = Some fault ->
  exists (m : jsstring) (w' : World),
    writeFileSync (upload_path P extname (clock w) file) (file_buffer file) w
    = (Throw m, w')
    /\ processMultipartEncodedData P extname req encoding w = (Throw m, w')
    /\ upload P extname req w = (Throw m, w').
Proof.
  intros Hf Hw.
  unfold processMultipartEncodedData, upload. rewrite Hf.
  cbn [store_uploads]. unfold bind, Date_now, writeFileSync. rewrite Hw.
  destruct fault as [m|k m]; eexists _, _; repeat split.
Qed.

Lemma upload_write_error_escapes_example :
  let file := mkUploadedFile (lit "doc") (Some (lit "a.txt")) (lit "text/plain")
                2 (lit "hi") in
  let w := {| files := ∅; clock := 5; disk := Some (OpenFails (lit "EACCES")) |} in
  exists (m : jsstring) (w' : World),
    writeFileSync (upload_path demo (fun _ => lit ".txt") (clock w) file)
      (file_buffer file) w
    = (Throw m, w')
    /\ processMultipartEncodedData demo (fun _ => lit ".txt")
         (mkRequest [(lit "file1", lit "aGk=")] [file]) (lit "base64") w
       = (Throw m, w')
    /\ upload demo (fun _ => lit ".txt")
         (mkRequest [(lit "file1", lit "aGk=")] [file]) w
       = (Throw m, w').
Proof.
  intros file w.
  exact (upload_write_error_escapes demo (fun _ => lit ".txt")
           (mkRequest [(lit "file1", lit "aGk=")] [file]) (lit "base64") w
           file [] (OpenFails (lit "EACCES")) eq_refl eq_refl).
Defined.

(** *** The universal route *)

(** The fields are all rejected alike when the decoding throws for every
    payload: each non-empty field gives the same failure, and nothing is
    written. *)
Lemma process_fields_throw (P : Platform) (body : list (jsstring * jsstring))
    (encoding m : jsstring) (fields : list jsstring) :
  (forall data, decode P data encoding = Throw m) ->
  forall (results : list Result) (w : World),
    process_fields P body encoding fields results w
    = (Return (results
                 ++ map (fun k => Encoded (failure k encoding m))
                      (List.filter (fun k => truthy (body_get body k)) fields)),
       w).
Proof.
  intros Hm. induction fields as [|k fields IH]; intros results w.
  - cbn. rewrite app_nil_r. reflexivity.
  - cbn [process_fields List.filter].
    destruct (body_get body k) as [[|c d]|]; cbn [truthy]; try apply IH.
    unfold bind. rewrite (decode_throw P _ _ _ _ _ m (Hm _)).
    rewrite IH, <- app_assoc. reflexivity.
Qed.

(** /upload-encoded answers 400 exactly when no key of the body is a file
    field and no file was uploaded; it then changes nothing. In every other
    case in which the handler returns, the status is 200. *)
Theorem upload_encoded_status (P : Platform) (extname : jsstring -> jsstring)
    (req : Request) (w w' : World) (resp : Response) :
  upload_encoded P extname req w = (Return resp, w') ->
  (status resp = 400 \/ status resp = 200)
  /\ (status resp = 400 <->
      file_fields (req_body req) = [] /\ req_files req = [])
  /\ (status resp = 400 ->
      w' = w
      /\ json resp
         = Rejected (lit "No file fields or uploaded files found in request")
             supported_encodings).
Proof.
  unfold upload_encoded.
  destruct (file_fields (req_body req)) as [|k ks] eqn:Hk;
    destruct (req_files req) as [|f fs] eqn:Hf.
  - intros [= <- <-]. cbn. repeat split; auto.
  - unfold bind.
    destruct (processMultipartEncodedData P extname req _ w) as [[rs|m] w1];
      [|discriminate].
    intros [= <- <-]. cbn.
    repeat split; auto; try discriminate; intros []; discriminate.
  - unfold bind.
    destruct (processMultipartEncodedData P extname req _ w) as [[rs|m] w1];
      [|discriminate].
    intros [= <- <-]. cbn.
    repeat split; auto; try discriminate; intros []; discriminate.
  - unfold bind.
    destruct (processMultipartEncodedData P extname req _ w) as [[rs|m] w1];
      [|discriminate].
    intros [= <- <-]. cbn.
    repeat split; auto; try discriminate; intros []; discriminate.
Qed.

Lemma upload_encoded_status_rejected :
  let req := mkRequest [(lit "encoding", lit "hex"); (lit "note", lit "x");
                        (lit "file1_ext", lit "txt")] [] in
  let r := upload_encoded demo (fun _ => []) req (fresh 0) in
  (status (mkResponse 400
             (Rejected (lit "No file fields or uploaded files found in request")
                supported_encodings)) = 400
   <-> file_fields (req_body req) = [] /\ req_files req = [])
  /\ snd r = fresh 0.
Proof.
  intros req r.
  destruct (upload_encoded_status demo (fun _ => []) req (fresh 0) (snd r)
              (mkResponse 400
                 (Rejected
                    (lit "No file fields or uploaded files found in request")
                    supported_encodings)) eq_refl) as (_ & H1 & H2).
  split; [exact H1|]. apply H2. reflexivity.
Defined.

(** A request whose file fields all have the empty string as value passes
    the guard of /upload-encoded: the answer is 200 with an empty list of
    files, and nothing is written. *)
Theorem empty_fields_pass_the_guard (P : Platform)
    (extname : jsstring -> jsstring) (req : Request) (w : World) :
  file_fields (req_body req) <> [] -> req_files req = [] ->
  (forall k, In k (file_fields (req_body req)) ->
             body_get (req_body req) k = Some []) ->
  upload_encoded P extname req w
  = (Return {| status := 200;
               json := Stored
                         (lit "Received and stored multipart form-data with "
                            ++ selected_encoding (req_body req)
                            ++ lit " encoding")
                         (Some (selected_encoding (req_body req))) []
                         (req_body req) |},
     w).
Proof.
  intros Hk Hf He.
  assert (Hp : forall fields results,
             (forall k, In k fields -> body_get (req_body req) k = Some []) ->
             process_fields P (req_body req)
               (selected_encoding (req_body req)) fields results w
             = (Return results, w)).
  { induction fields as [|k fields IH]; intros results Hall; [reflexivity|].
    cbn [process_fields]. rewrite (Hall k (or_introl eq_refl)).
    apply IH. intros k' Hk'. apply Hall. right. exact Hk'. }
  unfold upload_encoded.
  destruct (file_fields (req_body req)) as [|k ks] eqn:Hks; [congruence|].
  unfold processMultipartEncodedData, bind, ret.
  rewrite Hf, Hks, (Hp (k :: ks) [] He). reflexivity.
Qed.

Lemma empty_fields_pass_the_guard_example :
  upload_encoded demo (fun _ => []) (mkRequest [(lit "file1", lit "")] [])
    (fresh 0)
  = (Return {| status := 200;
               json := Stored
                         (lit "Received and stored multipart form-data with utf8 encoding")
                         (Some (lit "utf8")) [] [(lit "file1", lit "")] |},
     fresh 0).
Proof.
  apply (empty_fields_pass_the_guard demo (fun _ => [])
           (mkRequest [(lit "file1", lit "")] []) (fresh 0)).
  - discriminate.
  - reflexivity.
  - intros k [<-|[]]. reflexivity.
Defined.

(** An encoding that [processEncodedData] does not support is no HTTP error:
    with at least one file field and no uploaded file, /upload-encoded
    answers 200, reports for every non-empty file field the failure
    "Unsupported encoding", and writes nothing. *)
Theorem unsupported_encoding_answers_200 (P : Platform)
    (extname : jsstring -> jsstring) (req : Request) (w : World) :
  let encoding := selected_encoding (req_body req) in
  encoding ∉ accepted_names ->
  file_fields (req_body req) <> [] -> req_files req = [] ->
  upload_encoded P extname req w
  = (Return {| status := 200;
               json := Stored
                         (lit "Received and stored multipart form-data with "
                            ++ encoding ++ lit " encoding")
                         (Some encoding)
                         (map (fun k => Encoded
                                          (failure k encoding
                                             (msg_unsupported encoding)))
                            (List.filter
                               (fun k => truthy (body_get (req_body req) k))
                               (file_fields (req_body req))))
                         (req_body req) |},
     w).
Proof.
  intros encoding Hn Hk Hf. apply switch_case_None in Hn.
  assert (Hm : forall data,
             decode P data encoding = Throw (msg_unsupported encoding)).
  { intros data. unfold decode. rewrite Hn. reflexivity. }
  unfold upload_encoded. fold encoding.
  destruct (file_fields (req_body req)) as [|k ks] eqn:Hks; [congruence|].
  unfold processMultipartEncodedData, bind, ret.
  rewrite Hf, Hks.
  rewrite (process_fields_throw P (req_body req) encoding _ (k :: ks) Hm [] w).
  reflexivity.
Qed.

Lemma unsupported_encoding_answers_200_example :
  let req := mkRequest [(lit "encoding", lit "rot13"); (lit "file1", lit "abc")]
               [] in
  selected_encoding (req_body req) = lit "rot13"
  /\ exists body,
       upload_encoded demo (fun _ => []) req (fresh 0)
       = (Return {| status := 200; json := body |}, fresh 0).
Proof.
  intros req. split; [reflexivity|]. eexists.
  apply (unsupported_encoding_answers_200 demo (fun _ => []) req (fresh 0)).
  - apply switch_case_None. reflexivity.
  - discriminate.
  - reflexivity.
Defined.

Lemma zip_with_all {A B C : Type} (f : A -> B -> C) (Q : C -> Prop)
    (l1 : list A) :
  (forall a b, Q (f a b)) -> forall l2 : list B, Forall Q (zip_with f l1 l2).
Proof.
  intros Hf. induction l1 as [|a l1 IH]; intros l2; [constructor|].
  destruct l2 as [|b l2]; [constructor|]. cbn.
  constructor; [apply Hf | apply IH].
Qed.

(** The loop over the file fields when the decoding accepts every non-empty
    payload and the disk works: one success per non-empty field, in order,
    and every decoded buffer written at the reported path, in order. The
    timestamps in the file names are left open. *)
Lemma process_fields_stored (P : Platform) (body : list (jsstring * jsstring))
    (encoding : jsstring) (dec : jsstring -> bytes) (fields : list jsstring) :
  (forall data, data <> [] ->
                decode P data encoding = Return (dec data) /\ dec data <> []) ->
  forall (results : list Result) (w : World),
    disk w = None ->
    exists (times : list N) (w' : World),
      length times
      = length (List.filter (fun k => truthy (body_get body k)) fields)
      /\ process_fields P body encoding fields results w
         = (Return
              (results
                 ++ zip_with
                      (fun k t =>
                         Encoded
                           (Success k encoding
                              (N.of_nat
                                 (length (dec (default [] (body_get body k)))))
                              (path_join P (UPLOAD_DIR P)
                                 (make_filename t k encoding
                                    (determine_extension (hint_of body k)
                                       encoding
                                       (dec (default [] (body_get body k))))))
                              (N.of_nat
                                 (length (default [] (body_get body k))))))
                      (List.filter (fun k => truthy (body_get body k)) fields)
                      times),
            w')
      /\ files w'
         = foldl
             (fun m kt =>
                <[path_join P (UPLOAD_DIR P)
                    (make_filename kt.2 kt.1 encoding
                       (determine_extension (hint_of body kt.1) encoding
                          (dec (default [] (body_get body kt.1)))))
                  := dec (default [] (body_get body kt.1))]> m)
             (files w)
             (zip (List.filter (fun k => truthy (body_get body k)) fields)
                times)
      /\ disk w' = None.
Proof.
  intros Hdec. induction fields as [|k fields IH]; intros results w Hw.
  - exists [], w. cbn. rewrite app_nil_r. auto.
  - cbn [process_fields List.filter].
    destruct (body_get body k) as [[|c d]|] eqn:Hk; cbn [truthy];
      try (apply IH; exact Hw).
    destruct (Hdec (c :: d) ltac:(discriminate)) as [Hd Hne].
    pose proof (decode_stored P (c :: d) encoding k (hint_of body k) w
                  (dec (c :: d)) Hd Hne Hw) as Hs. cbv zeta in Hs.
    unfold bind. rewrite Hs.
    match goal with
    | |- context [process_fields _ _ _ _ (results ++ [Encoded ?o]) ?w1] =>
      destruct (IH (results ++ [Encoded o]) w1 Hw)
        as (ts & w' & Hl & Hr & Hf & Hw')
    end.
    exists (clock w :: ts), w'. split; [cbn [length]; congruence|].
    split; [|split; [|exact Hw']].
    + rewrite Hr, <- app_assoc. cbn [zip_with app]. rewrite Hk. reflexivity.
    + rewrite Hf. cbn [zip_with foldl fst snd]. rewrite Hk. reflexivity.
Qed.

(** Without an "encoding" field, or with an empty one, /upload-encoded
    decodes as utf8. As utf8 rejects nothing, when the disk works and no
    file was uploaded the response is 200 and lists exactly one success per
    non-empty file field, in key order, with the length of the payload and
    the length of its UTF-8 bytes; and the file store afterwards is the
    store before with the UTF-8 bytes of each of these fields written at the
    reported path, in that order. The timestamps in the names are left
    open. *)
Theorem default_encoding_is_utf8 (P : Platform)
    (extname : jsstring -> jsstring) (req : Request) (w : World) :
  (body_get (req_body req) (lit "encoding") = None
   \/ body_get (req_body req) (lit "encoding") = Some []) ->
  file_fields (req_body req) <> [] -> req_files req = [] -> disk w = None ->
  let body := req_body req in
  let fields :=
    List.filter (fun k => truthy (body_get body k)) (file_fields body) in
  let payload := fun k => default [] (body_get body k) in
  let path_of := fun k t =>
    path_join P (UPLOAD_DIR P)
      (make_filename t k (lit "utf8")
         (determine_extension (hint_of body k) (lit "utf8")
            (buffer_from_utf8 (payload k)))) in
  exists (results : list Result) (w' : World) (times : list N),
    upload_encoded P extname req w
    = (Return {| status := 200;
                 json := Stored
                           (lit "Received and stored multipart form-data with utf8 encoding")
                           (Some (lit "utf8")) results (req_body req) |},
       w')
    /\ Forall (fun r => exists f s q n,
                          r = Encoded (Success f (lit "utf8") s q n)) results
    /\ length times = length fields
    /\ results
       = zip_with
           (fun k t =>
              Encoded
                (Success k (lit "utf8")
                   (N.of_nat (length (buffer_from_utf8 (payload k))))
                   (path_of k t) (N.of_nat (length (payload k)))))
           fields times
    /\ files w'
       = foldl (fun m kt => <[path_of kt.1 kt.2
                              := buffer_from_utf8 (payload kt.1)]> m)
           (files w) (zip fields times).
Proof.
  intros He Hk Hf Hw. cbv zeta.
  assert (Hs : selected_encoding (req_body req) = lit "utf8").
  { unfold selected_encoding. destruct He as [-> | ->]; reflexivity. }
  assert (Hdec : forall data, data <> [] ->
                   decode P data (lit "utf8") = Return (buffer_from_utf8 data)
                   /\ buffer_from_utf8 data <> []).
  { intros data Hd. split; [reflexivity|].
    apply buffer_from_utf8_nonempty, Hd. }
  unfold upload_encoded. rewrite Hs.
  destruct (file_fields (req_body req)) as [|k ks] eqn:Hks; [congruence|].
  unfold processMultipartEncodedData, bind, ret.
  rewrite Hf, Hks.
  destruct (process_fields_stored P (req_body req) (lit "utf8")
              buffer_from_utf8 (k :: ks) Hdec [] w Hw)
    as (ts & w' & Hl & Hr & Hfs & _).
  rewrite Hr. eexists _, w', ts.
  split; [reflexivity|].
  split; [apply zip_with_all; intros; repeat eexists|].
  split; [exact Hl|]. split; [reflexivity | exact Hfs].
Qed.

Lemma default_encoding_is_utf8_example :
  let req := mkRequest [(lit "file1", lit "abc"); (lit "file2", [233])] [] in
  let body := req_body req in
  let fields :=
    List.filter (fun k => truthy (body_get body k)) (file_fields body) in
  let payload := fun k => default [] (body_get body k) in
  let path_of := fun k t =>
    path_join demo (UPLOAD_DIR demo)
      (make_filename t k (lit "utf8")
         (determine_extension (hint_of body k) (lit "utf8")
            (buffer_from_utf8 (payload k)))) in
  exists (results : list Result) (w' : World) (times : list N),
    upload_encoded demo (fun _ => []) req (fresh 0)
    = (Return {| status := 200;
                 json := Stored
                           (lit "Received and stored multipart form-data with utf8 encoding")
                           (Some (lit "utf8")) results (req_body req) |},
       w')
    /\ Forall (fun r => exists f s q n,
                          r = Encoded (Success f (lit "utf8") s q n)) results
    /\ length times = length fields
    /\ results
       = zip_with
           (fun k t =>
              Encoded
                (Success k (lit "utf8")
                   (N.of_nat (length (buffer_from_utf8 (payload k))))
                   (path_of k t) (N.of_nat (length (payload k)))))
           fields times
    /\ files w'
       = foldl (fun m kt => <[path_of kt.1 kt.2
                              := buffer_from_utf8 (payload kt.1)]> m)
           (files (fresh 0)) (zip fields times).
Proof.
  intros req.
  exact (default_encoding_is_utf8 demo (fun _ => []) req (fresh 0)
           (or_introl eq_refl) ltac:(discriminate) eq_refl eq_refl).
Defined.

(** *** The routes with a fixed encoding *)

Lemma upload_with_spec (P : Platform) (extname : jsstring -> jsstring)
    (encoding message : jsstring) (req : Request) (w : World) :
  req_files req = [] ->
  exists (results : list Result) (w' : World),
    upload_with P extname encoding message req w
    = (Return {| status := 200;
                 json := Stored message None results (req_body req) |}, w')
    /\ (file_fields (req_body req) = [] -> results = [] /\ w' = w).
Proof.
  intros Hf. unfold upload_with, processMultipartEncodedData, bind, ret.
  rewrite Hf.
  destruct (process_fields_spec P (req_body req) encoding
              (file_fields (req_body req)) [] w)
    as (rs & w' & Hr & _).
  exists rs, w'. rewrite Hr. split; [reflexivity|].
  intros Hk. rewrite Hk in Hr. cbn in Hr. injection Hr as <- <-. auto.
Qed.

(** The seven routes with a fixed encoding have no guard: without uploaded
    files each of them answers 200 for every body, and for a body without
    file field the list of files is empty and nothing is written (where
    /upload-encoded answers 400). *)
Theorem fixed_routes_never_reject (P : Platform)
    (extname : jsstring -> jsstring) (req : Request) (w : World) :
  req_files req = [] ->
  Forall (fun route : Request -> M Response =>
            exists (message : jsstring) (results : list Result) (w' : World),
              route req w
              = (Return {| status := 200;
                           json := Stored message None results (req_body req) |},
                 w')
              /\ (file_fields (req_body req) = [] -> results = [] /\ w' = w))
    [upload_base64 P extname; upload_binary P extname; upload_ascii P extname;
     upload_utf8 P extname; upload_utf16le P extname; upload_ucs2 P extname;
     upload_hex P extname].
Proof.
  intros Hf.
  repeat (constructor;
          [eexists; apply (upload_with_spec P extname _ _ req w Hf)|]).
  constructor.
Qed.

Lemma fixed_routes_never_reject_example :
  exists (message : jsstring) (results : list Result) (w' : World),
    upload_hex demo (fun _ => []) (mkRequest [(lit "note", lit "x")] [])
      (fresh 0)
    = (Return {| status := 200;
                 json := Stored message None results [(lit "note", lit "x")] |},
       w')
    /\ (file_fields [(lit "note", lit "x")] = [] -> results = [] /\ w' = fresh 0).
Proof.
  pose proof (fixed_routes_never_reject demo (fun _ => [])
                (mkRequest [(lit "note", lit "x")] []) (fresh 0) eq_refl) as H.
  rewrite List.Forall_forall in H.
  apply (H (upload_hex demo (fun _ => []))). cbn. tauto.
Defined.

(** ** The test data of test-encodings.js *)

Lemma utf8_bytes_is_bytes (cp : N) : is_bytes (utf8_bytes cp).
Proof.
  unfold utf8_bytes, is_bytes.
  destruct (cp <? 128) eqn:E1; [reflect_bool; repeat constructor; lia|].
  destruct (cp <? 2048) eqn:E2; [reflect_bool; repeat constructor; lia|].
  destruct (cp <? 65536) eqn:E3; reflect_bool; repeat constructor; lia.
Qed.

Lemma buffer_from_utf8_is_bytes_bounded (n : nat) :
  forall s : jsstring, (length s <= n)%nat -> is_bytes (buffer_from_utf8 s).
Proof.
  assert (Hr : is_bytes replacement)
    by (repeat (constructor; [lia|]); constructor).
  induction n as [|n IH]; intros s Hn.
  - destruct s; [constructor | cbn in Hn; lia].
  - destruct s as [|c r]; [constructor|]. cbn [length] in Hn.
    assert (IHr := IH r ltac:(lia)). cbn [buffer_from_utf8].
    destruct (is_high_surrogate c).
    + destruct r as [|d r']; [exact Hr|]. cbn [length] in Hn.
      destruct (is_low_surrogate d).
      * apply Forall_app. split; [apply utf8_bytes_is_bytes|].
        apply IH. lia.
      * apply Forall_app. split; [exact Hr | exact IHr].
    + destruct (is_low_surrogate c).
      * apply Forall_app. split; [exact Hr | exact IHr].
      * apply Forall_app. split; [apply utf8_bytes_is_bytes | exact IHr].
Qed.

Lemma buffer_from_utf8_is_bytes (s : jsstring) : is_bytes (buffer_from_utf8 s).
Proof. apply (buffer_from_utf8_is_bytes_bounded (length s)). lia. Qed.

(** For every non-empty test string, the values that [createTestData] builds
    for utf8, binary, base64 and hex are all decoded by the server to the
    same bytes, the UTF-8 encoding of the test string. *)
Theorem test_data_decodes_to_utf8 (join : jsstring -> jsstring -> jsstring)
    (dir text : jsstring) :
  text <> [] ->
  Forall (fun key =>
            exists v, body_get (test_data_of text) key = Some v
                      /\ decode (node join dir) v key
                         = Return (buffer_from_utf8 text))
    [lit "utf8"; lit "binary"; lit "base64"; lit "hex"].
Proof.
  intros Hne.
  pose proof (buffer_from_utf8_is_bytes text) as HB.
  pose proof (buffer_from_utf8_nonempty text Hne) as HBn.
  repeat (constructor; [eexists; split; [reflexivity|]|]); [| | | |constructor].
  - reflexivity.
  - unfold decode. change (switch_case (lit "binary")) with (Some Binary).
    rewrite (latin1_round_trip _ HB). reflexivity.
  - rewrite decode_base64_eq. apply decode_base64_text. exact HB.
  - rewrite decode_hex. destruct (hex_round_trip _ HB) as [Hd Hr].
    assert (Ht : test_hex (to_string_hex (buffer_from_utf8 text)) = true).
    { apply test_hex_spec. split; [|exact Hd].
      destruct (buffer_from_utf8 text); [congruence | discriminate]. }
    rewrite Ht, Hr. reflexivity.
Qed.

Lemma test_data_decodes_to_utf8_source :
  testString <> []
  /\ Forall (fun key =>
               exists v, body_get createTestData key = Some v
                         /\ decode demo v key
                            = Return (buffer_from_utf8 testString))
       [lit "utf8"; lit "binary"; lit "base64"; lit "hex"].
Proof.
  assert (Hne : testString <> []) by discriminate.
  split; [exact Hne|].
  exact (test_data_decodes_to_utf8 plain_join (lit "/srv/uploads") testString
           Hne).
Defined.

Lemma buffer_from_utf8_ascii (s : jsstring) :
  Forall (fun c => c < 128) s -> buffer_from_utf8 s = s.
Proof.
  induction 1 as [|c s Hc _ IH]; [reflexivity|]. cbn [buffer_from_utf8].
  destruct (not_surrogate c) as [Hh Hl]; [lia|].
  rewrite Hh, Hl, (utf8_one c Hc), IH. reflexivity.
Qed.

Lemma utf8_bytes_one (cp : N) :
  (1 <= length (utf8_bytes cp))%nat
  /\ (length (utf8_bytes cp) = 1%nat -> cp < 128).
Proof.
  unfold utf8_bytes.
  destruct (cp <? 128) eqn:E1; [reflect_bool; cbn; split; [lia | auto]|].
  destruct (cp <? 2048); [cbn; split; [lia | discriminate]|].
  destruct (cp <? 65536); cbn; (split; [lia | discriminate]).
Qed.

(** UTF-8 needs at least one byte per code unit, and exactly one per code
    unit only for text below 128. *)
Lemma buffer_from_utf8_same_length_bounded (n : nat) :
  forall s : jsstring,
    (length s <= n)%nat ->
    (length s <= length (buffer_from_utf8 s))%nat
    /\ (length (buffer_from_utf8 s) = length s -> Forall (fun c => c < 128) s).
Proof.
  induction n as [|n IH]; intros s Hn.
  - destruct s; [split; [cbn; lia | constructor] | cbn in Hn; lia].
  - destruct s as [|c r]; [split; [cbn; lia | constructor]|].
    cbn [length] in Hn. destruct (IH r ltac:(lia)) as [IH1 IH2].
    cbn [buffer_from_utf8].
    destruct (is_high_surrogate c).
    + destruct r as [|d r']; [cbn; split; [lia | discriminate]|].
      cbn [length] in Hn. destruct (IH r' ltac:(lia)) as [IH1' _].
      destruct (is_low_surrogate d).
      * rewrite length_app.
        destruct (utf8_bytes_length (65536 + (c - 55296) * 1024 + (d - 56320)))
          as [_ H4].
        rewrite H4 by lia. cbn [length]. split; lia.
      * rewrite length_app. cbn [replacement length] in *. split; lia.
    + destruct (is_low_surrogate c).
      * rewrite length_app. cbn [replacement length]. split; lia.
      * rewrite length_app. destruct (utf8_bytes_one c) as [H1 H2].
        cbn [length]. split; [lia|]. intros He.
        constructor; [apply H2; lia | apply IH2; lia].
Qed.

(** The value that [createTestData] gives for ascii is the test string
    itself, so the server stores the low byte of every code unit; these are
    the UTF-8 bytes that the other values decode to exactly when the test
    string consists of code units below 128. *)
Theorem ascii_test_data_is_lossy (join : jsstring -> jsstring -> jsstring)
    (dir text : jsstring) :
  body_get (test_data_of text) (lit "ascii") = Some text
  /\ decode (node join dir) text (lit "ascii")
     = Return (map (fun c => c mod 256) text)
  /\ (decode (node join dir) text (lit "ascii")
      = Return (buffer_from_utf8 text)
      <-> Forall (fun c => c < 128) text).
Proof.
  split; [reflexivity|]. split; [reflexivity|].
  unfold decode. change (switch_case (lit "ascii")) with (Some Ascii).
  unfold buffer_from_latin1. split.
  - intros [= He].
    apply (buffer_from_utf8_same_length_bounded (length text) text (le_n _)).
    rewrite <- He. apply length_map.
  - intros Ha. rewrite (buffer_from_utf8_ascii text Ha). f_equal.
    induction Ha as [|c s Hc _ IH]; [reflexivity|]. cbn [map].
    rewrite IH, N.mod_small by lia. reflexivity.
Qed.

(** The test string of the source is not below 128 throughout: its ascii
    test stores other bytes than its utf8 test. *)
Example ascii_test_of_the_source :
  decode demo testString (lit "ascii") <> Return (buffer_from_utf8 testString).
Proof. discriminate. Qed.

Lemma utf16le_truncates (B : bytes) :
  is_bytes B ->
  buffer_from_utf16le (to_string_utf16le B)
  = take (2 * (length B / 2)) B.
Proof.
  unfold buffer_from_utf16le.
  induction B as [| x | x y B IH] using pair_ind; intros HB.
  - reflexivity.
  - reflexivity.
  - inversion_clear HB as [|? ? Hx HB']. inversion_clear HB' as [|? ? Hy HB].
    cbn [to_string_utf16le flat_map app length]. rewrite (IH HB).
    replace (S (S (length B))) with (length B + 1 * 2)%nat by lia.
    rewrite Nat.div_add by lia.
    replace (2 * (length B / 2 + 1))%nat with (S (S (2 * (length B / 2))))
      by lia.
    cbn [take]. list_eq_by_lia.
Qed.

(** The values that [createTestData] gives for utf-16le and ucs2 pair up the
    UTF-8 bytes of the test string; the server decodes them back to these
    bytes, except that the last byte is lost when their number is odd. *)
Theorem utf16_test_data_drops_odd_byte
    (join : jsstring -> jsstring -> jsstring) (dir text : jsstring) :
  let B := buffer_from_utf8 text in
  Forall (fun key =>
            exists v, body_get (test_data_of text) key = Some v
                      /\ decode (node join dir) v key
                         = Return (take (2 * (length B / 2)) B))
    [lit "utf-16le"; lit "ucs2"].
Proof.
  intros B. pose proof (buffer_from_utf8_is_bytes text) as HB.
  repeat (constructor; [eexists; split; [reflexivity|]|]); [| |constructor].
  - unfold decode. change (switch_case (lit "utf-16le")) with (Some Utf16LE).
    rewrite (utf16le_truncates _ HB). reflexivity.
  - unfold decode. change (switch_case (lit "ucs2")) with (Some Ucs2).
    rewrite (utf16le_truncates _ HB). reflexivity.
Qed.

(** The UTF-8 encoding of the test string of the source has 87 bytes: its
    utf-16le test stores 86 of them. *)
Example utf16_test_of_the_source :
  length (buffer_from_utf8 testString) = 87%nat
  /\ exists v d, body_get createTestData (lit "utf-16le") = Some v
                 /\ decode demo v (lit "utf-16le") = Return d
                 /\ length d = 86%nat.
Proof.
  split; [reflexivity|]. eexists _, _. repeat split.
Qed.
